(** * DFStore and the not-found wrapper of workbench-bridges

    A shallow embedding of
      - [src/workbench_bridges/aws/df_store.py]   (class [DFStore])
      - [src/workbench_bridges/utils/aws_utils.py] ([not_found_returns_none])
      - [src/workbench_bridges/utils/logger.py]    ([logging_setup])
      - [src/workbench_bridges/utils/athena_utils.py] ([ensure_catalog_db],
        [dataframe_to_table], [delete_table])
    and the properties of the dataset store that follow from the code.

    Layout: the Python string methods the code calls, the name/key mapping,
    the values passed around (exceptions, tables), the remote store with its
    failures, the state-and-exception monad the methods run in, the calls of
    awswrangler with the way they take a path (a prefix, or a pattern with
    wildcards), the methods themselves, the logger set-up and the catalog
    functions, and then the theorems. *)

From Stdlib Require Import Ascii.
From Stdlib Require String.
From stdpp Require Import base option list strings pretty gmap fin_maps.

Local Open Scope string_scope.

(** ** Python string methods used by the code *)

Module PyStr.

(** [s.startswith(p)]. *)
Fixpoint startswith (s p : string) {struct p} : bool :=
  match p with
  | EmptyString => true
  | String a p' =>
      match s with
      | EmptyString => false
      | String b s' => if Ascii.eqb a b then startswith s' p' else false
      end
  end.

(** [p in s] for strings. *)
Fixpoint contains (s p : string) : bool :=
  match s with
  | EmptyString => startswith EmptyString p
  | String _ s' => startswith s p || contains s' p
  end.

(** [c in s] for a single character [c]. *)
Fixpoint mentions (s : string) (c : ascii) : bool :=
  match s with
  | EmptyString => false
  | String b s' => Ascii.eqb c b || mentions s' c
  end.

(** The scan of [s.replace(old, new)] for a non-empty [old]: left to right,
    occurrences do not overlap.  [skip] counts the characters of an
    occurrence that are still to be passed over. *)
Fixpoint replace_scan (old new : string) (skip : nat) (s : string) : string :=
  match s with
  | EmptyString => EmptyString
  | String c s' =>
      match skip with
      | S k => replace_scan old new k s'
      | O =>
          if startswith s old
          then new +:+ replace_scan old new (Nat.pred (String.length old)) s'
          else String c (replace_scan old new O s')
      end
  end.

(** With an empty [old], Python puts [new] before every character and at
    the end. *)
Fixpoint intersperse (new s : string) : string :=
  match s with
  | EmptyString => new
  | String c s' => new +:+ String c (intersperse new s')
  end.

(** [s.replace(old, new)]. *)
Definition replace (s old new : string) : string :=
  match old with
  | EmptyString => intersperse new s
  | String _ _ => replace_scan old new O s
  end.

(** The scan of [s.split(sep)]: the piece being read and the pieces after
    it. *)
Fixpoint split_scan (sep : string) (skip : nat) (s : string)
  : string * list string :=
  match s with
  | EmptyString => (EmptyString, [])
  | String c s' =>
      match skip with
      | S k => split_scan sep k s'
      | O =>
          if startswith s sep
          then let '(p, ps) := split_scan sep (Nat.pred (String.length sep)) s'
               in (EmptyString, p :: ps)
          else let '(p, ps) := split_scan sep O s' in (String c p, ps)
      end
  end.

(** [s.split(sep)] for a given separator.  Python raises [ValueError] on an
    empty separator; the only call of the code passes [".parquet"], and the
    model gives no pieces there. *)
Definition split (s sep : string) : list string :=
  match sep with
  | EmptyString => []
  | String _ _ => let '(p, ps) := split_scan sep O s in p :: ps
  end.

(** [s[n:]]. *)
Fixpoint slice_from (n : nat) (s : string) : string :=
  match n, s with
  | S k, String _ s' => slice_from k s'
  | _, _ => s
  end.

(** [s.endswith(suf)]. *)
Fixpoint endswith (s suf : string) : bool :=
  String.eqb s suf
  || match s with
     | EmptyString => false
     | String _ s' => endswith s' suf
     end.

(** [l[0]] on a list of strings that has a first element. *)
Definition item0 (l : list string) : string := default EmptyString (head l).

End PyStr.

(** ** The name/key mapping *)

(** [self.prefix], set in [__init__]. *)
Definition store_prefix : string := "df_store/".

(** The fields of a [DFStore] object that the methods read. *)
Record DFStore := mkDFStore {
  prefix : string;
  df_bucket : string
}.

(** [DFStore._generate_s3_uri]. *)
Definition _generate_s3_uri (self : DFStore) (name : string) : string :=
  let s3_path := df_bucket self +:+ "/" +:+ prefix self +:+ name +:+ ".parquet" in
  let s3_path := PyStr.replace s3_path "//" "/" in
  "s3://" +:+ s3_path.

(** The expression of [DFStore.details] that turns a listed key back into a
    name: [full_key.replace(f"{self.prefix}", "/").split(".parquet")[0]]. *)
Definition name_of_key (self : DFStore) (full_key : string) : string :=
  PyStr.item0 (PyStr.split (PyStr.replace full_key (prefix self) "/") ".parquet").

(** [f"s3://{self.df_bucket}/{full_key}"] of [DFStore.details]. *)
Definition s3_file_of_key (self : DFStore) (full_key : string) : string :=
  "s3://" +:+ df_bucket self +:+ "/" +:+ full_key.

(** The part of a path that comes before the keys of a bucket. *)
Definition s3_root (Bucket : string) : string := "s3://" +:+ Bucket +:+ "/".

(** The key, inside its bucket, of the object at [path]. *)
Definition key_of_path (Bucket path : string) : string :=
  PyStr.slice_from (String.length (s3_root Bucket)) path.

(** The storage key of a name: the key of the path [_generate_s3_uri] gives. *)
Definition storage_key (self : DFStore) (name : string) : string :=
  key_of_path (df_bucket self) (_generate_s3_uri self name).

(** A name without its leading separator, if it has one. *)
Definition unslash (name : string) : string :=
  if PyStr.startswith name "/" then PyStr.slice_from 1 name else name.

(** A legal logical name, in the words of the specification: not empty, and
    containing neither the namespace prefix nor the file extension. *)
Definition legal_name (self : DFStore) (name : string) : bool :=
  negb (bool_decide (name = EmptyString))
  && negb (PyStr.contains name (prefix self))
  && negb (PyStr.contains name ".parquet").

(** A name that decoding gives back: it begins with the separator and has no
    doubled separator after its first character. *)
Definition canonical_name (name : string) : bool :=
  PyStr.startswith name "/" && negb (PyStr.contains (PyStr.slice_from 1 name) "//").

(** ** Values: exceptions, log records, tables *)

(** The exceptions the code meets.  All are subclasses of [Exception], which
    is what [except Exception] catches.  [msg] is [str(e)]; for [ClientError],
    [code] is [error.response["Error"]["Code"]].  [ClientErrorWithout key] is
    a [ClientError] whose response has no such entry: [key] is ["Error"] when
    [response["Error"]] is missing and ["Code"] when only the code is; the
    errors botocore builds from a remote answer always have both. *)
Inductive exn : Type :=
  | ClientError (code msg : string)
  | ClientErrorWithout (key msg : string)
  | NoFilesFound (msg : string)
  | ValueError (msg : string)
  | OtherException (cls msg : string).

Definition exn_str (e : exn) : string :=
  match e with
  | ClientError _ msg | ClientErrorWithout _ msg | NoFilesFound msg | ValueError msg
  | OtherException _ msg => msg
  end.

(** [isinstance(e, ClientError)]. *)
Definition is_ClientError (e : exn) : bool :=
  match e with ClientError _ _ | ClientErrorWithout _ _ => true | _ => false end.

(** The [KeyError] of [error.response["Error"]["Code"]] on a response without
    the entry [key]. *)
Definition KeyError (key : string) : exn :=
  OtherException "KeyError" ("'" +:+ key +:+ "'").

(** Levels of the [logging] calls the code makes. *)
Inductive level : Type := INFO | WARNING | ERROR | CRITICAL.

Definition log_record : Type := level * string.

(** A column label: a string, or the integer pandas uses for an unnamed
    series. *)
Inductive label : Type :=
  | LStr (s : string)
  | LInt (z : Z).

(** A cell of a table. *)
Inductive value : Type :=
  | VNull
  | VBool (b : bool)
  | VInt (z : Z)
  | VStr (s : string)
  | VTime (t : Z).

(** A [pd.DataFrame]: the ordered column labels and the rows.  The index is
    not modelled. *)
Record DataFrame := mkDataFrame {
  columns : list label;
  rows : list (list value)
}.

(** A [pd.Series]: its name, if any, and its values. *)
Record Series := mkSeries {
  sname : option label;
  svalues : list value
}.

(** [pd.DataFrame()]. *)
Definition DataFrame_empty : DataFrame := mkDataFrame [] [].

(** [pd.DataFrame(columns=cols)]. *)
Definition DataFrame_columns (cols : list string) : DataFrame :=
  mkDataFrame (LStr <$> cols) [].

(** [pd.DataFrame(data, columns=cols)] for a list of rows. *)
Definition DataFrame_rows (data : list (list value)) (cols : list string) : DataFrame :=
  mkDataFrame (LStr <$> cols) data.

(** [series.to_frame()]: one column, labelled by the series name, or [0]. *)
Definition to_frame (s : Series) : DataFrame :=
  mkDataFrame [default (LInt 0) (sname s)] ((λ v, [v]) <$> svalues s).

(** The Python values a caller can pass as [data], or a wrapped function can
    return. *)
Inductive pyvalue : Type :=
  | PyNone
  | PyBool (b : bool)
  | PyInt (z : Z)
  | PyStr (s : string)
  | PyDataFrame (df : DataFrame)
  | PySeries (s : Series)
  | PyObject (cls : string).

(** [isinstance(data, pd.Series)] and [isinstance(data, pd.DataFrame)]. *)
Definition is_Series (data : pyvalue) : bool :=
  match data with PySeries _ => true | _ => false end.
Definition is_DataFrame (data : pyvalue) : bool :=
  match data with PyDataFrame _ => true | _ => false end.

(** ** The table codec (external collaborator) *)

(** What the store needs of the parquet codec: a blob type, both directions,
    and the size of a blob as the listing reports it. *)
Class TableCodec (blob : Type) := {
  to_blob : DataFrame → blob;
  of_blob : blob → DataFrame;
  blob_size : blob → Z
}.

(** A table is supported when the codec gives it back unchanged. *)
Definition supported `{TableCodec blob} (T : DataFrame) : Prop :=
  of_blob (to_blob T) = T.

(** A codec that keeps the table itself, counting cells for the size. *)
#[export] Instance plain_codec : TableCodec DataFrame := {
  to_blob df := df;
  of_blob b := b;
  blob_size b := Z.of_nat (length (columns b) * length (rows b))
}.

(** ** How awswrangler takes a path (external collaborator) *)

(** What the store needs of the library besides the codec: which objects a
    path argument selects ([selects path object]: a path without wildcard
    characters selects the objects whose path it begins, a path with [*], [?]
    or a bracket expression those that match it as a pattern); the name it
    gives to the part file it writes at a given time; and the table it makes
    of the tables of several files read together. *)
Class Wrangler := {
  selects : string → string → bool;
  part_name : Z → string;
  concat_frames : list DataFrame → DataFrame
}.

(** The folder of a dataset written at [path]:
    [path if path.endswith("/") else f"{path}/"]. *)
Definition path_root (path : string) : string :=
  if PyStr.endswith path "/" then path else path +:+ "/".

(** ** The world the methods run in *)

(** The remote calls the code makes, as recorded in the trace. *)
Inductive remote_call : Type :=
  | Call_list_objects_v2 (Bucket Prefix : string)
  | Call_read_parquet (path : string)
  | Call_to_parquet (path : string)
  | Call_list_objects (path : string)
  | Call_delete_objects (path : string).

(** An object of the remote store. *)
Record s3_object (blob : Type) := mkObject {
  Body : blob;
  Size : Z;
  LastModified : Z
}.
Arguments mkObject {blob}.
Arguments Body {blob}.
Arguments Size {blob}.
Arguments LastModified {blob}.

(** The remote store, keyed by the path of an object ([s3://bucket/key]); its
    clock; the outcomes the environment has in store for the next calls of the
    library ([Some e]: the call raises [e], whatever the reason, in the
    library or at the remote; [None], or nothing left: the call goes
    through); the trace of the calls made; and the records written to the
    logger. *)
Record world (blob : Type) := mkWorld {
  objects : gmap string (s3_object blob);
  clock : Z;
  pending : list (option exn);
  calls : list remote_call;
  log : list log_record
}.
Arguments mkWorld {blob}.
Arguments objects {blob}.
Arguments clock {blob}.
Arguments pending {blob}.
Arguments calls {blob}.
Arguments log {blob}.

(** How a Python call ends. *)
Inductive result (A : Type) : Type :=
  | Return (a : A)
  | Raise (e : exn).
Arguments Return {A}.
Arguments Raise {A}.

(** Computations over the world that return or raise. *)
Definition M (blob A : Type) : Type := world blob → result A * world blob.

Section Monad.
Context {blob : Type}.

(** [return a]. *)
#[export] Instance M_ret : MRet (M blob) := λ A a w, (Return a, w).

(** Sequencing: a raised exception skips what follows. *)
#[export] Instance M_bind : MBind (M blob) := λ A B k m w,
  match m w with
  | (Return a, w') => k a w'
  | (Raise e, w') => (Raise e, w')
  end.

(** [raise e]. *)
Definition raise {A} (e : exn) : M blob A := λ w, (Raise e, w).

(** [try: body  except ...:]: [handler e] is the clause that catches [e],
    if there is one. *)
Definition try_except {A} (body : M blob A) (handler : exn → option (M blob A))
  : M blob A :=
  λ w, match body w with
       | (Return a, w') => (Return a, w')
       | (Raise e, w') =>
           match handler e with
           | Some h => h w'
           | None => (Raise e, w')
           end
       end.

(** The outcome the environment holds for the [i]-th remote call from now:
    [Some e] when the call will raise [e], [None] when it will go
    through. *)
Definition outcome (i : nat) (w : world blob) : option exn :=
  default None (pending w !! i).

(** The next [n] remote calls go through. *)
Definition quiet (n : nat) (w : world blob) : Prop :=
  ∀ i, i < n → outcome i w = None.

(** The world after one more log record. *)
Definition logged (r : log_record) (w : world blob) : world blob :=
  mkWorld (objects w) (clock w) (pending w) (calls w) (log w ++ [r]).

(** The world after one more remote call has taken its outcome. *)
Definition called (c : remote_call) (w : world blob) : world blob :=
  mkWorld (objects w) (clock w) (tail (pending w)) (calls w ++ [c]) (log w).

(** The world after the store has changed; the clock ticks. *)
Definition stored (o : gmap string (s3_object blob)) (w : world blob) : world blob :=
  mkWorld o (clock w + 1) (pending w) (calls w) (log w).

(** [self.log.<level>(msg)]. *)
Definition log_at (lv : level) (msg : string) : M blob () :=
  λ w, (Return (), logged (lv, msg) w).

(** A remote call is recorded, and takes the next outcome of the
    environment: it raises, or goes on to its effect. *)
Definition remote (c : remote_call) : M blob () :=
  λ w, match outcome 0 w with
       | Some e => (Raise e, called c w)
       | None => (Return (), called c w)
       end.

Definition read_world : M blob (world blob) := λ w, (Return w, w).

Definition write_objects (o : gmap string (s3_object blob)) : M blob () :=
  λ w, (Return (), stored o w).

End Monad.

(** ** The remote calls (external collaborators) *)

(** What [list_objects_v2] reports of a stored object. *)
Record listed := mkListed {
  Key : string;
  listed_Size : Z;
  listed_LastModified : Z
}.

Section Remote.
Context `{TableCodec blob} `{Wrangler}.

(** The objects of the store that a path argument selects, and those it
    leaves. *)
Definition selected (path : string) (o : gmap string (s3_object blob))
  : gmap string (s3_object blob) :=
  filter (λ kv, selects path kv.1 = true) o.

Definition unselected (path : string) (o : gmap string (s3_object blob))
  : gmap string (s3_object blob) :=
  filter (λ kv, selects path kv.1 = false) o.

(** What the library makes of the files it reads together: the table of the
    one file, or the tables of all of them put together. *)
Definition read_frames (files : list (string * s3_object blob)) : DataFrame :=
  match files with
  | [(_, o)] => of_blob (Body o)
  | _ => concat_frames ((λ kv, of_blob (Body kv.2)) <$> files)
  end.

(** [wr.s3.to_parquet(df=df, path=path, dataset=True, mode="overwrite")]:
    the objects that the folder of the dataset selects are deleted, and the
    table is written to a new part file in that folder.  A call that fails,
    at the remote or before it gets there (a table that the codec does not
    write, such as one with a column label that is no string), is a call
    whose outcome is an exception. *)
Definition wr_s3_to_parquet (df : DataFrame) (path : string) : M blob () :=
  remote (Call_to_parquet path);;
  w ← read_world;
  let b := to_blob df in
  write_objects
    (<[path_root path +:+ part_name (clock w) := mkObject b (blob_size b) (clock w)]>
       (unselected (path_root path) (objects w))).

(** [wr.s3.read_parquet(path)]: all the objects that [path] selects are read;
    when there is none it raises [NoFilesFound], the exception [aws_utils.py]
    imports from awswrangler. *)
Definition wr_s3_read_parquet (path : string) : M blob DataFrame :=
  remote (Call_read_parquet path);;
  w ← read_world;
  match map_to_list (selected path (objects w)) with
  | [] => raise (NoFilesFound ("No files Found on: " +:+ path +:+ "."))
  | files => mret (read_frames files)
  end.

(** [wr.s3.list_objects(path)]: the paths of the objects that [path]
    selects. *)
Definition wr_s3_list_objects (path : string) : M blob (list string) :=
  remote (Call_list_objects path);;
  w ← read_world;
  mret ((map_to_list (selected path (objects w))).*1).

(** [wr.s3.delete_objects(path)]: all the objects that [path] selects are
    deleted. *)
Definition wr_s3_delete_objects (path : string) : M blob () :=
  remote (Call_delete_objects path);;
  w ← read_world;
  write_objects (unselected path (objects w)).

(** The objects of the bucket whose key starts with [Prefix], as listed. *)
Definition listing (Bucket Prefix : string) (o : gmap string (s3_object blob))
  : list listed :=
  omap (λ '(path, ob),
          if PyStr.startswith path (s3_root Bucket +:+ Prefix)
          then Some (mkListed (key_of_path Bucket path) (Size ob) (LastModified ob))
          else None)
       (map_to_list o).

(** [s3_client.list_objects_v2(Bucket=..., Prefix=...)]: the response has a
    ["Contents"] entry only when something is listed. *)
Definition list_objects_v2 (Bucket Prefix : string) : M blob (option (list listed)) :=
  remote (Call_list_objects_v2 Bucket Prefix);;
  w ← read_world;
  match listing Bucket Prefix (objects w) with
  | [] => mret None
  | contents => mret (Some contents)
  end.

End Remote.

(** ** [DFStore] *)

(** [DFStore.__init__]: the bucket is the argument or, when that is missing
    or empty, the value found in the parameter store.  [ParameterStore] is
    not among the sources at hand; [param] stands for what its [get]
    answers. *)
Definition DFStore_init (s3_df_bucket param : option string) : result DFStore :=
  let given :=
    match s3_df_bucket with
    | Some EmptyString | None => param
    | Some b => Some b
    end in
  match given with
  | None =>
      Raise (ValueError ("Either specify S3 Bucket or set '"
                         +:+ "/workbench/config/workbench_bucket"
                         +:+ "' in Parameter Store."))
  | Some b => Return (mkDFStore store_prefix b)
  end.

(** The columns of the table of [details]. *)
Definition detail_columns : list string := ["name"; "s3_file"; "size"; "modified"].

(** The columns of the table [details] returns after a failure. *)
Definition failure_columns : list string :=
  ["name"; "s3_file"; "size"; "created"; "modified"].

(** The row [details] collects for one listed object. *)
Definition detail_row (self : DFStore) (obj : listed) : list value :=
  let full_key := Key obj in
  let name := name_of_key self full_key in
  let s3_file := s3_file_of_key self full_key in
  let size := listed_Size obj in
  let modified := listed_LastModified obj in
  [VStr name; VStr s3_file; VInt size; VTime modified].

Section Store.
Context `{TableCodec blob} `{Wrangler}.

(** The part file that an [upsert] of [name] writes in the world [w]. *)
Definition part_path (self : DFStore) (name : string) (w : world blob) : string :=
  path_root (_generate_s3_uri self name) +:+ part_name (clock w).

(** The path of [name] reads its own dataset in [w]: it selects the part file
    that an [upsert] writes in [w], and every stored object it selects is one
    that the folder of the dataset selects too, and so one that the write
    replaces. *)
Definition reads_own_dataset (self : DFStore) (name : string) (w : world blob) : Prop :=
  selects (_generate_s3_uri self name) (part_path self name w) = true
  ∧ ∀ k, is_Some (objects w !! k) →
         selects (_generate_s3_uri self name) k = true →
         selects (path_root (_generate_s3_uri self name)) k = true.

(** [DFStore.details]. *)
Definition details (self : DFStore) : M blob DataFrame :=
  try_except
    (response ← list_objects_v2 (df_bucket self) (prefix self);
     match response with
     | None => mret (DataFrame_columns detail_columns)
     | Some contents =>
         let data := detail_row self <$> contents in
         let df := DataFrame_rows data detail_columns in
         mret df
     end)
    (λ e, Some (log_at ERROR ("Failed to get object details: " +:+ exn_str e);;
                mret (DataFrame_columns failure_columns))).

(** [DFStore.get]. *)
Definition get (self : DFStore) (name : string) : M blob DataFrame :=
  let s3_uri := _generate_s3_uri self name in
  try_except
    (df ← wr_s3_read_parquet s3_uri;
     mret df)
    (λ e, match e with
          | ClientError _ _ | ClientErrorWithout _ _ =>
              Some (log_at WARNING ("Data '" +:+ name +:+ "' not found in S3.");;
                    mret DataFrame_empty)
          | _ => None
          end).

(** [DFStore.upsert]. *)
Definition upsert (self : DFStore) (name : string) (data : pyvalue) : M blob () :=
  let data := match data with
              | PySeries s => PyDataFrame (to_frame s)
              | _ => data
              end in
  match data with
  | PyDataFrame df =>
      let s3_uri := _generate_s3_uri self name in
      try_except
        (wr_s3_to_parquet df s3_uri;;
         log_at INFO ("Data '" +:+ name +:+ "' added/updated successfully in S3."))
        (λ e, Some (log_at CRITICAL ("Failed to add/update data '" +:+ name +:+ "': "
                                     +:+ exn_str e);;
                    raise e))
  | _ => raise (ValueError "Only Pandas DataFrame or Series objects are supported.")
  end.

(** [DFStore.delete]. *)
Definition delete_ (self : DFStore) (name : string) : M blob () :=
  let s3_uri := _generate_s3_uri self name in
  found ← wr_s3_list_objects s3_uri;
  match found with
  | [] => log_at WARNING ("Data '" +:+ name +:+ "' does not exist in S3. Cannot delete.")
  | _ =>
      try_except
        (wr_s3_delete_objects s3_uri;;
         log_at INFO ("Data '" +:+ name +:+ "' deleted successfully from S3."))
        (λ e, Some (log_at ERROR ("Failed to delete data '" +:+ name +:+ "': "
                                  +:+ exn_str e)))
  end.

End Store.

(** ** [not_found_returns_none] *)

Section Wrapper.
Context {blob Args : Type}.

(** The error codes the wrapper takes for "not found". *)
Definition not_found_errors : gset string :=
  {[ "ResourceNotFound"; "ResourceNotFoundException"; "EntityNotFoundException";
     "ValidationException"; "NoSuchBucket" ]}.

(** The [wrapper] that [decorator(inner_func)] returns, called on [args]
    (positional and keyword arguments together). *)
Definition wrapper (resource_name : string) (inner_func : Args → M blob pyvalue)
  (args : Args) : M blob pyvalue :=
  try_except
    (inner_func args)
    (λ error,
       match error with
       | ClientError error_code _ =>
           Some (if bool_decide (error_code ∈ not_found_errors)
                 then log_at WARNING (resource_name +:+ " not found: " +:+ error_code
                                      +:+ ", returning None...");;
                      mret PyNone
                 else log_at CRITICAL ("Critical error in AWS call: " +:+ error_code);;
                      raise error)
       | ClientErrorWithout key _ => Some (raise (KeyError key))
       | NoFilesFound _ =>
           Some (log_at INFO ("Resource " +:+ resource_name
                              +:+ " not found returning None...");;
                 mret PyNone)
       | _ => None
       end).

(** [not_found_returns_none(func, resource_name=...)]: the wrapped function
    when [func] is given, the decorator when it is not. *)
Definition not_found_returns_none (func : option (Args → M blob pyvalue))
  (resource_name : option string)
  : (Args → M blob pyvalue) + ((Args → M blob pyvalue) → Args → M blob pyvalue) :=
  let resource_name := default "AWS resource" resource_name in
  let decorator := wrapper resource_name in
  match func with
  | None => inr decorator
  | Some f => inl (decorator f)
  end.

End Wrapper.

(** ** A reading of paths for the examples *)

(** The selection of objects as [wr.s3.list_objects] makes it for a path
    argument: the objects whose path begins with the path when that has no
    wildcard character, and otherwise the objects whose path matches it as an
    [fnmatch] pattern. *)
Module Glob.

(** The pieces of an [fnmatch] pattern: [*], [?], a character, and a bracket
    expression with its body, negated by a leading [!]. *)
Inductive token : Type :=
  | Star
  | AnyChar
  | Lit (c : ascii)
  | Class (neg : bool) (body : string).

(** [c in ["*", "?", "["]], and whether a path has such a character. *)
Definition is_wildcard (c : ascii) : bool :=
  Ascii.eqb c "*" || Ascii.eqb c "?" || Ascii.eqb c "[".

Fixpoint has_wildcard (s : string) : bool :=
  match s with
  | EmptyString => false
  | String c s' => is_wildcard c || has_wildcard s'
  end.

(** The text before the first ["]"] and the text after it. *)
Fixpoint until_bracket (s : string) : option (string * string) :=
  match s with
  | EmptyString => None
  | String c s' =>
      if Ascii.eqb c "]" then Some (EmptyString, s')
      else '(a, b) ← until_bracket s'; Some (String c a, b)
  end.

(** The bracket expression that begins after a ["["]: whether it is negated,
    its body and the rest of the pattern; a ["]"] right at the start belongs
    to the body, and without a closing bracket there is no expression. *)
Definition bracket (s : string) : option (bool * string * string) :=
  let '(neg, s1) :=
    match s with
    | String c s' => if Ascii.eqb c "!" then (true, s') else (false, s)
    | EmptyString => (false, s)
    end in
  match s1 with
  | String c s2 =>
      if Ascii.eqb c "]"
      then '(a, b) ← until_bracket s2; Some (neg, String c a, b)
      else '(a, b) ← until_bracket s1; Some (neg, a, b)
  | EmptyString => None
  end.

(** The pieces of a pattern, read in at most [fuel] steps. *)
Fixpoint tokens (fuel : nat) (pat : string) : list token :=
  match fuel, pat with
  | S fuel', String c pat' =>
      if Ascii.eqb c "*" then Star :: tokens fuel' pat'
      else if Ascii.eqb c "?" then AnyChar :: tokens fuel' pat'
      else if Ascii.eqb c "["
      then match bracket pat' with
           | Some (neg, body, rest) => Class neg body :: tokens fuel' rest
           | None => Lit c :: tokens fuel' pat'
           end
      else Lit c :: tokens fuel' pat'
  | _, _ => []
  end.

(** Whether a character is in the body of a bracket expression: [a-b] is a
    range when a character follows the hyphen. *)
Fixpoint in_class (c : ascii) (body : string) : bool :=
  match body with
  | EmptyString => false
  | String a rest =>
      match rest with
      | String h (String b rest') =>
          if Ascii.eqb h "-"
          then ((nat_of_ascii a <=? nat_of_ascii c)%nat
                && (nat_of_ascii c <=? nat_of_ascii b)%nat)
               || in_class c rest'
          else Ascii.eqb a c || in_class c rest
      | _ => Ascii.eqb a c || in_class c rest
      end
  end.

(** Whether the whole of a string matches the pieces of a pattern. *)
Fixpoint matches (ts : list token) (s : string) {struct ts} : bool :=
  match ts with
  | [] => match s with EmptyString => true | _ => false end
  | Star :: ts' =>
      (fix any (s : string) : bool :=
         matches ts' s
         || match s with
            | EmptyString => false
            | String _ s' => any s'
            end) s
  | AnyChar :: ts' =>
      match s with
      | String _ s' => matches ts' s'
      | EmptyString => false
      end
  | Lit c :: ts' =>
      match s with
      | String d s' => Ascii.eqb c d && matches ts' s'
      | EmptyString => false
      end
  | Class neg body :: ts' =>
      match s with
      | String d s' => xorb neg (in_class d body) && matches ts' s'
      | EmptyString => false
      end
  end.

(** [fnmatch.fnmatchcase(name, pat)]. *)
Definition fnmatch (name pat : string) : bool :=
  matches (tokens (String.length pat) pat) name.

(** The objects a path argument selects. *)
Definition selects (path object : string) : bool :=
  if has_wildcard path then fnmatch object path else PyStr.startswith object path.

(** A name for the part file written at time [t]. *)
Definition part_name (t : Z) : string := "part" +:+ pretty t +:+ ".snappy.parquet".

(** The tables of several files of one schema, read together: the rows of
    all, under the columns of the first. *)
Definition concat_frames (l : list DataFrame) : DataFrame :=
  mkDataFrame (default [] (columns <$> head l)) (mjoin (rows <$> l)).

End Glob.

#[export] Instance glob_wrangler : Wrangler := {
  selects := Glob.selects;
  part_name := Glob.part_name;
  concat_frames := Glob.concat_frames
}.

(** ** The data of the module's own exercise ([__main__] of both files) *)

Definition demo_store : DFStore := mkDFStore store_prefix "workbench-bucket".

(** [pd.DataFrame({"A": [1, 2], "B": [3, 4]})]. *)
Definition my_df : DataFrame :=
  mkDataFrame [LStr "A"; LStr "B"] [[VInt 1; VInt 3]; [VInt 2; VInt 4]].

(** [pd.Series([1, 2, 3, 4], name="Series")]. *)
Definition series : Series :=
  mkSeries (Some (LStr "Series")) [VInt 1; VInt 2; VInt 3; VInt 4].

(** An empty store on which every remote call goes through. *)
Definition fresh_world : world DataFrame := mkWorld ∅ 0 [] [] [].

(** An empty store whose next remote call is refused. *)
Definition access_denied : exn :=
  ClientError "AccessDenied"
    "An error occurred (AccessDenied) when calling the operation: Access Denied".
Definition denied_world : world DataFrame := mkWorld ∅ 0 [Some access_denied] [] [].

(** The store after [df_store.upsert("test_data", my_df)]. *)
Definition written_world : world DataFrame :=
  snd (upsert demo_store "test_data" (PyDataFrame my_df) fresh_world).

(** [test_not_found] and [test_other_error] of [aws_utils.py]. *)
Definition test_not_found : () → M DataFrame pyvalue :=
  λ _, raise (ClientError "ResourceNotFoundException" "test").
Definition test_other_error : () → M DataFrame pyvalue :=
  λ _, raise (ClientError "SomeOtherError" "test").

(** ** The logger set-up of [logger.py] *)

Module Logger.

(** The levels of [logging], and the two levels [logger.py] adds. *)
Definition DEBUG_NUM : Z := 10.
Definition INFO_NUM : Z := 20.
Definition IMPORTANT_LEVEL_NUM : Z := 25.
Definition WARNING_NUM : Z := 30.
Definition MONITOR_LEVEL_NUM : Z := 35.
Definition ERROR_NUM : Z := 40.
Definition CRITICAL_NUM : Z := 50.

(** The formatter of a handler: [ColoredFormatter] or [logging.Formatter],
    both built with the same format and date format. *)
Inductive formatter : Type := ColoredFormatter | PlainFormatter.

(** A handler of the logger: the stream it writes to and its formatter, if
    one was set. *)
Record handler := mkHandler {
  stream : string;
  handler_formatter : option formatter
}.

#[export] Instance formatter_eq_dec : EqDecision formatter.
Proof. solve_decision. Defined.
#[export] Instance handler_eq_dec : EqDecision handler.
Proof. solve_decision. Defined.

(** What [logging_setup] reads and writes: the attributes of the logger
    ["workbench-bridges"] ([_is_setup] missing reads as [false]), the calls of
    [log.debug] made so far, the level of the logger ["sagemaker.config"], and
    the environment variable [SAGEWORKS_DEBUG]. *)
Record process := mkProcess {
  _is_setup : bool;
  propagate : bool;
  handlers : list handler;
  logger_level : Z;
  debug_calls : list string;
  sagemaker_config_level : Z;
  SAGEWORKS_DEBUG : option string
}.

(** [c.lower()] on the letters [A] to [Z]; other characters are kept. *)
Definition lower_ascii (c : ascii) : ascii :=
  let n := nat_of_ascii c in
  if (65 <=? n)%nat && (n <=? 90)%nat then ascii_of_nat (n + 32) else c.

(** [s.lower()], for strings of ASCII characters. *)
Fixpoint lower (s : string) : string :=
  match s with
  | EmptyString => EmptyString
  | String c s' => String (lower_ascii c) (lower s')
  end.

(** [handlers.remove(h)]: the first element equal to [h] goes. *)
Fixpoint list_remove (h : handler) (hs : list handler) : list handler :=
  match hs with
  | [] => []
  | h' :: hs' => if decide (h = h') then hs' else h' :: list_remove h hs'
  end.

(** [log.removeHandler(h)]. *)
Definition removeHandler (h : handler) (hs : list handler) : list handler :=
  if decide (h ∈ hs) then list_remove h hs else hs.

(** [log.addHandler(h)]. *)
Definition addHandler (h : handler) (hs : list handler) : list handler :=
  if decide (h ∈ hs) then hs else (hs ++ [h])%list.

(** [while log.handlers: log.removeHandler(log.handlers[0])], run for at most
    [fuel] rounds; [None] when the loop has not ended by then. *)
Fixpoint remove_all_handlers (fuel : nat) (hs : list handler) : option (list handler) :=
  match hs with
  | [] => Some []
  | h :: _ =>
      match fuel with
      | O => None
      | S fuel' => remove_all_handlers fuel' (removeHandler h hs)
      end
  end.

(** [logging_setup(color_logs)], with [fuel] rounds for its loop. *)
Definition logging_setup (fuel : nat) (color_logs : bool) (p : process) : option process :=
  if _is_setup p then Some p
  else
    hs ← remove_all_handlers fuel (handlers p);
    let stream_handler := mkHandler "sys.stdout" None in
    let formatter := if color_logs then ColoredFormatter else PlainFormatter in
    let stream_handler := mkHandler (stream stream_handler) (Some formatter) in
    let hs := addHandler stream_handler hs in
    let debug_env := default "False" (SAGEWORKS_DEBUG p) in
    let '(lvl, dbg) :=
      if bool_decide (lower debug_env = "true")
      then (DEBUG_NUM,
            (debug_calls p
               ++ ["Debugging enabled via SAGEWORKS_DEBUG environment variable."])%list)
      else (INFO_NUM, debug_calls p) in
    Some (mkProcess true false hs lvl dbg WARNING_NUM (SAGEWORKS_DEBUG p)).

End Logger.

(** ** The catalog functions of [athena_utils.py] *)

Module Athena.

(** The remote calls of [athena_utils.py]. *)
Inductive glue_call : Type :=
  | Call_get_sagemaker_session
  | Call_create_database (name : string) (exist_ok : bool)
  | Call_to_parquet (df : DataFrame) (path database table : string)
  | Call_get_table (DatabaseName Name : string)
  | Call_delete_table_if_exists (database table : string).

(** The catalog: its databases and its tables, by database and name; the
    outcomes the environment holds for the next remote calls; the trace of
    remote calls; and the calls made on the logger, each with the number of
    its level. *)
Record catalog := mkCatalog {
  databases : gset string;
  tables : gset (string * string);
  glue_pending : list (option exn);
  glue_calls : list glue_call;
  glue_log : list (Z * string)
}.

(** How a call ends: it returns, raises, or leaves the process through
    [sys.exit]. *)
Inductive ending (A : Type) : Type :=
  | Returns (a : A)
  | Raises (e : exn)
  | Exits (status : Z).
Arguments Returns {A}.
Arguments Raises {A}.
Arguments Exits {A}.

Definition G (A : Type) : Type := catalog → ending A * catalog.

#[export] Instance G_ret : MRet G := λ A a c, (Returns a, c).

#[export] Instance G_bind : MBind G := λ A B k m c,
  match m c with
  | (Returns a, c') => k a c'
  | (Raises e, c') => (Raises e, c')
  | (Exits s, c') => (Exits s, c')
  end.

(** [sys.exit(status)]. *)
Definition sys_exit {A} (status : Z) : G A := λ c, (Exits status, c).

(** [try: body  except ...:], as in the store; [sys.exit] passes through
    every clause for [Exception]. *)
Definition try_except {A} (body : G A) (handler : exn → option (G A)) : G A :=
  λ c, match body c with
       | (Raises e, c') =>
           match handler e with
           | Some h => h c'
           | None => (Raises e, c')
           end
       | r => r
       end.

Definition glue_logged (r : Z * string) (c : catalog) : catalog :=
  mkCatalog (databases c) (tables c) (glue_pending c) (glue_calls c)
            (glue_log c ++ [r])%list.

Definition glue_called (k : glue_call) (c : catalog) : catalog :=
  mkCatalog (databases c) (tables c) (tail (glue_pending c)) (glue_calls c ++ [k])%list
            (glue_log c).

Definition glue_outcome (i : nat) (c : catalog) : option exn :=
  default None (glue_pending c !! i).

(** A call on the logger, at the level with number [lv]. *)
Definition log_at (lv : Z) (msg : string) : G () :=
  λ c, (Returns (), glue_logged (lv, msg) c).

(** A remote call takes the next outcome, and changes the catalog by
    [effect] when it goes through. *)
Definition glue_remote (k : glue_call) (effect : catalog → catalog) : G () :=
  λ c, match glue_outcome 0 c with
       | Some e => (Raises e, glue_called k c)
       | None => (Returns (), effect (glue_called k c))
       end.

Definition with_databases (f : gset string → gset string) (c : catalog) : catalog :=
  mkCatalog (f (databases c)) (tables c) (glue_pending c) (glue_calls c) (glue_log c).

Definition with_tables (f : gset (string * string) → gset (string * string))
  (c : catalog) : catalog :=
  mkCatalog (databases c) (f (tables c)) (glue_pending c) (glue_calls c) (glue_log c).

(** [get_sagemaker_session()], whose module is not among the sources at hand:
    a remote call that returns or raises. *)
Definition get_sagemaker_session : G () :=
  glue_remote Call_get_sagemaker_session id.

(** [wr.catalog.create_database(name, exist_ok=True, ...)]. *)
Definition create_database (name : string) : G () :=
  glue_remote (Call_create_database name true) (with_databases (λ d, {[name]} ∪ d)).

(** [wr.s3.to_parquet(df=df, path=path, dataset=True, mode="overwrite",
    database=database, table=table, ...)]: when the call goes through the
    table is in the catalog afterwards.  A database that is missing makes the
    call fail, which is one of the failures an outcome stands for.  The data
    written at [path] is not part of this model. *)
Definition to_parquet (df : DataFrame) (path database table : string) : G () :=
  glue_remote (Call_to_parquet df path database table)
              (with_tables (λ t, {[(database, table)]} ∪ t)).

(** [wr.catalog.delete_table_if_exists(database=..., table=...)]. *)
Definition delete_table_if_exists (database table : string) : G () :=
  glue_remote (Call_delete_table_if_exists database table)
              (with_tables (λ t, t ∖ {[(database, table)]})).

(** What the catalog answers about a table: one that is not there is
    reported with the code [EntityNotFoundException]. *)
Definition find_table (DatabaseName Name : string) : G () :=
  λ c, if bool_decide ((DatabaseName, Name) ∈ tables c)
       then (Returns (), c)
       else (Raises (ClientError "EntityNotFoundException"
                       ("Table " +:+ Name +:+ " not found.")), c).

(** [glue_client.get_table(DatabaseName=..., Name=...)]. *)
Definition get_table (DatabaseName Name : string) : G () :=
  glue_remote (Call_get_table DatabaseName Name) id;;
  find_table DatabaseName Name.

(** [except glue_client.exceptions.EntityNotFoundException]: the class of the
    [ClientError]s with that code. *)
Definition is_EntityNotFoundException (e : exn) : bool :=
  match e with
  | ClientError code _ => bool_decide (code = "EntityNotFoundException")
  | _ => false
  end.

(** [ensure_catalog_db]. *)
Definition ensure_catalog_db (catalog_db : string) : G () :=
  log_at Logger.INFO_NUM "Assuming Workbench Execution Role...";;
  get_sagemaker_session;;
  log_at Logger.IMPORTANT_LEVEL_NUM
    ("Ensuring that the AWS Data Catalog Database " +:+ catalog_db +:+ " exists...");;
  try_except
    (create_database catalog_db)
    (λ e, match e with
          | ClientError code _ =>
              Some (if bool_decide (code = "AccessDeniedException")
                    then
                      log_at Logger.ERROR_NUM ("AccessDeniedException " +:+ exn_str e);;
                      log_at Logger.ERROR_NUM
                        ("Access denied while trying to create/access the catalog database '"
                         +:+ catalog_db +:+ "'.");;
                      log_at Logger.ERROR_NUM
                        "Create the database manually in the AWS Glue Console, or run this command:";;
                      log_at Logger.ERROR_NUM
                        ("aws glue create-database --database-input '{" +:+ String "034" "Name"
                         +:+ String "034" ": " +:+ String "034" catalog_db
                         +:+ String "034" "}'");;
                      sys_exit 1
                    else
                      log_at Logger.ERROR_NUM ("Unexpected error: " +:+ exn_str e);;
                      sys_exit 1)
          | ClientErrorWithout key _ => Some (λ c, (Raises (KeyError key), c))
          | _ => None
          end).

(** [dataframe_to_table]. *)
Definition dataframe_to_table (df : DataFrame) (s3_path database table_name : string)
  : G () :=
  log_at Logger.INFO_NUM "Assuming Workbench Execution Role...";;
  get_sagemaker_session;;
  to_parquet df s3_path database table_name;;
  try_except
    (get_table database table_name;;
     log_at Logger.INFO_NUM
       ("Table " +:+ table_name +:+ " successfully created in database "
        +:+ database +:+ "."))
    (λ e, if is_EntityNotFoundException e
          then Some (log_at Logger.CRITICAL_NUM
                       ("Failed to create table " +:+ table_name +:+ " in database "
                        +:+ database +:+ "."))
          else None).

(** [delete_table]. *)
Definition delete_table (table_name database : string) : G () :=
  delete_table_if_exists database table_name;;
  try_except
    (get_table database table_name;;
     log_at Logger.ERROR_NUM
       ("Failed to delete table " +:+ table_name +:+ " in database " +:+ database +:+ "."))
    (λ e, if is_EntityNotFoundException e
          then Some (log_at Logger.INFO_NUM
                       ("Table " +:+ table_name +:+ " successfully deleted from database "
                        +:+ database +:+ "."))
          else None).

End Athena.

(** Proof steps for the catalog functions: the cases of the next outcomes of
    a catalog, and one run of a function on a catalog whose outcomes are
    known. *)
Ltac glue_cases c :=
  destruct c as [dbs tbs pend cs lg];
  unfold Athena.glue_outcome; cbn [Athena.glue_pending];
  destruct pend as [|[?|] [|[?|] [|[?|] ?]]]; intros; cbn in *; simplify_eq.

Ltac glue_run :=
  unfold Athena.ensure_catalog_db, Athena.dataframe_to_table, Athena.delete_table,
    Athena.get_sagemaker_session, Athena.create_database, Athena.to_parquet,
    Athena.delete_table_if_exists, Athena.get_table, Athena.try_except,
    Athena.glue_remote, mbind, Athena.G_bind, Athena.log_at, Athena.sys_exit,
    Athena.glue_outcome;
  cbn.

(** ** Data for the set-up and the catalog functions *)

(** A logger that was not set up and has a handler of its own, in a process
    where [SAGEWORKS_DEBUG] is ["True"]. *)
Definition demo_process : Logger.process :=
  Logger.mkProcess false true [Logger.mkHandler "sys.stderr" None] 0 [] 0 (Some "True").

(** A catalog without databases and tables on which every call goes
    through. *)
Definition fresh_catalog : Athena.catalog := Athena.mkCatalog ∅ ∅ [] [] [].

(** A catalog that has the database of the examples. *)
Definition ready_catalog : Athena.catalog :=
  Athena.mkCatalog {[ "inference_store" ]} ∅ [] [] [].

(** The fresh catalog, refusing the second call. *)
Definition access_denied_exception : exn :=
  ClientError "AccessDeniedException" "User is not authorized to perform glue:CreateDatabase".
Definition denied_catalog : Athena.catalog :=
  Athena.mkCatalog ∅ ∅ [None; Some access_denied_exception] [] [].

(** * Properties *)

(** ** The string methods and the name/key mapping on examples *)

Example replace_ex1 : PyStr.replace "a//b//c" "//" "/" = "a/b/c".
Proof. reflexivity. Qed.
Example replace_ex2 : PyStr.replace "a///b" "//" "/" = "a//b".
Proof. reflexivity. Qed.
Example replace_ex3 : PyStr.replace "abc" "" "-" = "-a-b-c-".
Proof. reflexivity. Qed.
Example split_ex1 : PyStr.split "/x.parquet/y.parquet" ".parquet" = ["/x"; "/y"; ""].
Proof. reflexivity. Qed.
Example uri_ex1 :
  _generate_s3_uri (mkDFStore store_prefix "bkt") "test_data"
  = "s3://bkt/df_store/test_data.parquet".
Proof. reflexivity. Qed.
Example uri_ex2 :
  _generate_s3_uri (mkDFStore store_prefix "bkt") "/test/data"
  = "s3://bkt/df_store/test/data.parquet".
Proof. reflexivity. Qed.
Example name_ex1 :
  name_of_key (mkDFStore store_prefix "bkt") "df_store/test_data.parquet/ab.snappy.parquet"
  = "/test_data".
Proof. reflexivity. Qed.


Example fnmatch_ex1 :
  Glob.fnmatch "s3://b/df_store/test_data.parquet/part0.snappy.parquet"
               "s3://b/df_store/te*.parquet" = true.
Proof. reflexivity. Qed.
Example fnmatch_ex2 : Glob.fnmatch "x[1]" "x[1]" = false ∧ Glob.fnmatch "x1" "x[0-9]" = true.
Proof. split; reflexivity. Qed.
Example fnmatch_ex3 : Glob.fnmatch "xa" "x[!0-9]" = true ∧ Glob.fnmatch "x]" "x[]]" = true.
Proof. split; reflexivity. Qed.
Example fnmatch_ex4 : Glob.fnmatch "ab" "a?" = true ∧ Glob.fnmatch "a" "a?" = false.
Proof. split; reflexivity. Qed.
Example selects_ex1 :
  Glob.selects "s3://b/df_store/a.parquet" "s3://b/df_store/a.parquet/part0.snappy.parquet"
  = true.
Proof. reflexivity. Qed.
Example selects_ex2 :
  Glob.selects "s3://b/df_store/a.parquet" "s3://b/df_store/ab.parquet/part0.snappy.parquet"
  = false.
Proof. reflexivity. Qed.

(** ** Facts about the string methods *)

Section StringFacts.
Import PyStr.
#[local] Arguments String.append !s1 s2 /.

Lemma ascii_eqb_sym a b : Ascii.eqb a b = Ascii.eqb b a.
Proof.
  destruct (Ascii.eqb_spec a b) as [->|Hab].
  - symmetry. apply Ascii.eqb_refl.
  - symmetry. apply Ascii.eqb_neq. congruence.
Qed.

Lemma app_assoc' (a b c : string) : (a +:+ b) +:+ c = a +:+ (b +:+ c).
Proof. induction a as [|x a IH]; simpl; [done | by f_equal]. Qed.

Lemma startswith_self s t : startswith (s +:+ t) s = true.
Proof.
  induction s as [|a s IH]; simpl; [done |].
  by rewrite Ascii.eqb_refl.
Qed.

(** A character that the pattern does not mention cannot help a match that
    has to run over it. *)
Lemma startswith_app_fresh s p c t :
  mentions p c = false →
  startswith (s +:+ String c t) p = startswith s p.
Proof.
  revert s. induction p as [|a p IH]; intros s Hc; [by destruct s |].
  simpl in Hc. apply orb_false_iff in Hc as [Hca Hp].
  destruct s as [|b s]; simpl.
  - by rewrite ascii_eqb_sym, Hca.
  - destruct (Ascii.eqb a b); [by apply IH | done].
Qed.

Lemma contains_empty_pattern p : p ≠ EmptyString → startswith EmptyString p = false.
Proof. by destruct p. Qed.

Lemma contains_app_fresh s p c t :
  p ≠ EmptyString → mentions p c = false →
  contains (s +:+ String c t) p = contains s p || contains (String c t) p.
Proof.
  intros Hp Hc. induction s as [|b s IH].
  - cbn [contains String.append]. by rewrite (contains_empty_pattern p Hp).
  - change (String b s +:+ String c t) with (String b (s +:+ String c t)).
    cbn [contains]. rewrite IH.
    change (String b (s +:+ String c t)) with (String b s +:+ String c t).
    rewrite (startswith_app_fresh (String b s) p c t Hc).
    by rewrite orb_assoc.
Qed.

Lemma contains_tail b s p : contains (String b s) p = false → contains s p = false.
Proof. cbn [contains]. by intros [_ ?]%orb_false_iff. Qed.

Lemma replace_scan_skip old new u t :
  replace_scan old new (String.length u) (u +:+ t) = replace_scan old new O t.
Proof. induction u as [|a u IH]; simpl; [by destruct t | done]. Qed.

Lemma replace_scan_none old new s :
  contains s old = false → replace_scan old new O s = s.
Proof.
  induction s as [|b s IH]; [done |].
  cbn [contains replace_scan]. intros [Hb Hs]%orb_false_iff.
  rewrite Hb. by rewrite IH.
Qed.

(** No occurrence of [old] starts in a stretch without its first
    character. *)
Lemma replace_scan_app_clean a old new s t :
  mentions s a = false →
  replace_scan (String a old) new O (s +:+ t)
  = s +:+ replace_scan (String a old) new O t.
Proof.
  induction s as [|b s IH]; [done |].
  cbn [mentions]. intros [Hab Hs]%orb_false_iff.
  change (String b s +:+ t) with (String b (s +:+ t)).
  cbn [replace_scan startswith]. rewrite Hab.
  by rewrite IH.
Qed.

Lemma split_scan_first c0 sep s r :
  mentions sep c0 = false →
  contains s (String c0 sep) = false →
  fst (split_scan (String c0 sep) O (s +:+ String c0 sep +:+ r)) = s.
Proof.
  intros Hfresh. induction s as [|b s IH]; intros Hs.
  - change (EmptyString +:+ String c0 sep +:+ r) with (String c0 (sep +:+ r)).
    cbn [split_scan startswith]. rewrite Ascii.eqb_refl, startswith_self.
    by destruct (split_scan _ _ _).
  - cbn [contains] in Hs. apply orb_false_iff in Hs as [Hb Hs].
    change (String b s +:+ String c0 sep +:+ r)
      with (String b (s +:+ String c0 (sep +:+ r))).
    cbn [split_scan]. cbn [startswith] in Hb |- *.
    rewrite (startswith_app_fresh s sep c0 (sep +:+ r) Hfresh), Hb.
    specialize (IH Hs).
    change (String c0 sep +:+ r) with (String c0 (sep +:+ r)) in IH.
    destruct (split_scan _ _ _) as [p ps]. simpl in *. by rewrite IH.
Qed.

Lemma slice_from_app u t : slice_from (String.length u) (u +:+ t) = t.
Proof. induction u as [|a u IH]; simpl; [by destruct t | done]. Qed.

End StringFacts.

(** ** Facts about the name/key mapping *)

Section NameCodec.
Import PyStr.
#[local] Arguments String.append !s1 s2 /.
#[local] Arguments Ascii.eqb : simpl never.

Lemma replace_scan_miss old new c s :
  startswith (String c s) old = false →
  replace_scan old new O (String c s) = String c (replace_scan old new O s).
Proof. intros Hm. cbn [replace_scan]. by rewrite Hm. Qed.

Lemma replace_scan_hit a old new t :
  replace_scan (String a old) new O (String a old +:+ t)
  = new +:+ replace_scan (String a old) new O t.
Proof.
  change (String a old +:+ t) with (String a (old +:+ t)).
  cbn [replace_scan].
  change (String a (old +:+ t)) with (String a old +:+ t).
  rewrite startswith_self. cbn [String.length Nat.pred].
  by rewrite replace_scan_skip.
Qed.

Lemma item0_split c0 sep s r :
  mentions sep c0 = false →
  contains s (String c0 sep) = false →
  item0 (split (s +:+ String c0 sep +:+ r) (String c0 sep)) = s.
Proof.
  intros Hf Hs. unfold split.
  pose proof (split_scan_first c0 sep s r Hf Hs) as Hfst.
  destruct (split_scan _ _ _) as [p ps]. exact Hfst.
Qed.

Lemma contains_unslash name p :
  contains name p = false → contains (unslash name) p = false.
Proof.
  unfold unslash. destruct name as [|c n]; [done |].
  cbn [startswith slice_from]. destruct (Ascii.eqb "/" c); [|done].
  apply contains_tail.
Qed.

Lemma unslash_slash name :
  startswith name "/" = true → String "/" (unslash name) = name.
Proof.
  unfold unslash. intros Hs. rewrite Hs.
  destruct name as [|c n]; [done |]. cbn [startswith] in Hs.
  destruct (Ascii.eqb_spec "/" c) as [<-|]; [done | done].
Qed.

Lemma generate_s3_uri_shape bucket name :
  mentions bucket "/" = false → contains name "//" = false →
  _generate_s3_uri (mkDFStore store_prefix bucket) name
  = s3_root bucket +:+ store_prefix +:+ unslash name +:+ ".parquet".
Proof.
  intros Hb Hn.
  assert (Hext : ∀ s, contains s "//" = false → contains (s +:+ ".parquet") "//" = false).
  { intros s Hs. rewrite (contains_app_fresh s "//" "." "parquet"); [| done | done].
    by rewrite Hs. }
  unfold _generate_s3_uri, s3_root, replace, store_prefix. cbn [df_bucket prefix].
  rewrite (replace_scan_app_clean "/" "/" "/" bucket _ Hb).
  rewrite !app_assoc'. f_equal. f_equal.
  change ("/" +:+ "df_store/" +:+ name +:+ ".parquet")
    with (String "/" ("df_store" +:+ String "/" (name +:+ ".parquet"))).
  rewrite replace_scan_miss by reflexivity.
  rewrite (replace_scan_app_clean "/" "/" "/" "df_store") by reflexivity.
  change ("/" +:+ "df_store/" +:+ unslash name +:+ ".parquet")
    with (String "/" ("df_store" +:+ String "/" (unslash name +:+ ".parquet"))).
  f_equal. f_equal.
  destruct name as [|c n]; [reflexivity |].
  unfold unslash. cbn [startswith slice_from].
  destruct (Ascii.eqb_spec "/" c) as [<-|Hc].
  - change (String "/" (String "/" n +:+ ".parquet"))
      with ("//" +:+ (n +:+ ".parquet")).
    rewrite replace_scan_hit.
    rewrite replace_scan_none; [done |].
    apply Hext. by apply contains_tail in Hn.
  - rewrite replace_scan_miss.
    + by rewrite replace_scan_none by (by apply Hext).
    + cbn [startswith String.append]. rewrite Ascii.eqb_refl.
      by apply Ascii.eqb_neq in Hc as ->.
Qed.

(** No occurrence of [old] starts in a stretch that does not contain it, when
    the character after the stretch is not one of [old]. *)
Lemma replace_scan_app_fresh old new s c t :
  contains s old = false → mentions old c = false →
  replace_scan old new O (s +:+ String c t)
  = s +:+ replace_scan old new O (String c t).
Proof.
  intros Hs Hc. induction s as [|b s IH]; [done |].
  cbn [contains] in Hs. apply orb_false_iff in Hs as [Hb Hs].
  change (String b s +:+ String c t) with (String b (s +:+ String c t)).
  rewrite replace_scan_miss.
  - rewrite (IH Hs). done.
  - change (String b (s +:+ String c t)) with (String b s +:+ String c t).
    by rewrite startswith_app_fresh.
Qed.

Lemma app_empty_r (s : string) : s +:+ "" = s.
Proof. induction s as [|a s IH]; simpl; [done | by f_equal]. Qed.

(** Decoding any key that extends the storage key of a name, such as the key
    of a part file of the dataset written at that path. *)
Lemma name_of_listed_key bucket name rest :
  mentions bucket "/" = false →
  contains name "//" = false →
  contains name store_prefix = false →
  contains name ".parquet" = false →
  name_of_key (mkDFStore store_prefix bucket)
              (storage_key (mkDFStore store_prefix bucket) name +:+ rest)
  = String "/" (unslash name).
Proof.
  intros Hb Hs Hp He.
  unfold storage_key, key_of_path. cbn [df_bucket].
  unfold store_prefix in Hp.
  rewrite generate_s3_uri_shape by done.
  rewrite slice_from_app.
  unfold name_of_key, replace, store_prefix. cbn [prefix].
  rewrite !app_assoc'. rewrite replace_scan_hit.
  change (".parquet" +:+ rest) with (String "." ("parquet" +:+ rest)).
  rewrite replace_scan_app_fresh; [| by apply contains_unslash | done].
  change (String "." ("parquet" +:+ rest)) with (".parquet" +:+ rest).
  rewrite (replace_scan_app_clean "d" "f_store/" "/" ".parquet") by reflexivity.
  change ("/" +:+ unslash name +:+ ".parquet" +:+ replace_scan "df_store/" "/" 0 rest)
    with (String "/" (unslash name) +:+ ".parquet"
          +:+ replace_scan "df_store/" "/" 0 rest).
  apply item0_split; [done |].
  cbn [contains]. apply orb_false_iff. split; [done |].
  by apply contains_unslash.
Qed.

Lemma name_of_storage_key bucket name :
  mentions bucket "/" = false →
  contains name "//" = false →
  contains name store_prefix = false →
  contains name ".parquet" = false →
  name_of_key (mkDFStore store_prefix bucket)
              (storage_key (mkDFStore store_prefix bucket) name)
  = String "/" (unslash name).
Proof.
  intros Hb Hs Hp He.
  rewrite <- (name_of_listed_key bucket name "" Hb Hs Hp He).
  by rewrite app_empty_r.
Qed.

End NameCodec.

(** ** The collapse of doubled separators *)

Section Collapse.
Import PyStr.
#[local] Arguments String.append !s1 s2 /.
#[local] Arguments Ascii.eqb : simpl never.

Lemma startswith_app_mono u p r :
  startswith u p = true → startswith (u +:+ r) p = true.
Proof.
  revert u. induction p as [|a p IH]; intros u Hu; [done |].
  destruct u as [|b u]; [done |]. cbn [startswith String.append] in *.
  destruct (Ascii.eqb a b); [by apply IH | done].
Qed.

Lemma startswith_length s p :
  startswith s p = true → (String.length p ≤ String.length s)%nat.
Proof.
  revert s. induction p as [|a p IH]; intros s Hs; cbn [String.length]; [lia |].
  destruct s as [|b s]; [done |]. cbn [startswith String.length] in *.
  destruct (Ascii.eqb a b); [| done]. specialize (IH s Hs). lia.
Qed.

(** A scan for [old] over a string followed by a character that is not in
    [old]: what was matched lies on one side of that character. *)
Lemma replace_scan_app_split old new c t s k :
  mentions old c = false → (k ≤ String.length s)%nat →
  replace_scan old new k (s +:+ String c t)
  = replace_scan old new k s +:+ replace_scan old new O (String c t).
Proof.
  intros Hc. revert k. induction s as [|b s IH]; intros k Hk.
  - cbn [String.length] in Hk. by replace k with O by lia.
  - change (String b s +:+ String c t) with (String b (s +:+ String c t)).
    destruct k as [|k].
    + cbn [replace_scan].
      change (String b (s +:+ String c t)) with (String b s +:+ String c t).
      rewrite (startswith_app_fresh (String b s) old c t Hc).
      destruct (startswith (String b s) old) eqn:Hm.
      * apply startswith_length in Hm. cbn [String.length] in Hm.
        rewrite IH by lia. by rewrite app_assoc'.
      * rewrite IH by lia. done.
    + cbn [replace_scan]. cbn [String.length] in Hk. apply IH. lia.
Qed.

(** One step of the collapse: a doubled separator gives one, any other
    character is kept. *)
Lemma collapse_hit x :
  replace_scan "//" "/" 0 (String "/" (String "/" x))
  = String "/" (replace_scan "//" "/" 0 x).
Proof. exact (replace_scan_hit "/" "/" "/" x). Qed.

Lemma collapse_cases a x :
  (a = "/"%char ∧ ∃ x', x = String "/" x'
     ∧ replace_scan "//" "/" 0 (String a x) = String "/" (replace_scan "//" "/" 0 x'))
  ∨ (startswith (String a x) "//" = false
     ∧ replace_scan "//" "/" 0 (String a x) = String a (replace_scan "//" "/" 0 x)).
Proof.
  destruct (startswith (String a x) "//") eqn:Hm.
  - left. cbn [startswith] in Hm.
    destruct (Ascii.eqb_spec "/" a) as [<-|]; [| done].
    destruct x as [|b x']; [done |].
    destruct (Ascii.eqb_spec "/" b) as [<-|]; [| done].
    split; [done |]. exists x'. split; [done |]. apply collapse_hit.
  - right. split; [done |]. by apply replace_scan_miss.
Qed.

(** The collapse keeps the first character. *)
Lemma collapse_first c x :
  startswith (replace_scan "//" "/" 0 x) (String c EmptyString)
  = startswith x (String c EmptyString).
Proof.
  destruct x as [|a x]; [done |].
  destruct (collapse_cases a x) as [(-> & x' & -> & ->) | [_ ->]]; done.
Qed.

(** The collapse never makes a string longer. *)
Lemma collapse_length n x :
  (String.length x ≤ n)%nat →
  (String.length (replace_scan "//" "/" 0 x) ≤ String.length x)%nat.
Proof.
  revert x. induction n as [|n IH]; intros x Hn.
  - destruct x; [done | cbn [String.length] in Hn; lia].
  - destruct x as [|a x]; [done |].
    cbn [String.length] in Hn.
    destruct (collapse_cases a x) as [(-> & x' & -> & ->) | [_ ->]].
    + cbn [String.length] in *. specialize (IH x'). lia.
    + cbn [String.length]. specialize (IH x). lia.
Qed.

(** A string that the collapse leaves as it is has no doubled separator. *)
Lemma collapse_fixed x :
  replace_scan "//" "/" 0 x = x → contains x "//" = false.
Proof.
  induction x as [|a x IH]; [done |]. intros Hfix.
  destruct (collapse_cases a x) as [(-> & x' & -> & Hc) | [Hm Hc]].
  - rewrite Hc in Hfix. injection Hfix as Hfix.
    pose proof (collapse_length (String.length x') x' ltac:(lia)) as Hlen.
    rewrite Hfix in Hlen. cbn [String.length] in Hlen. lia.
  - rewrite Hc in Hfix. injection Hfix as Hfix.
    cbn [contains]. by rewrite Hm, IH.
Qed.

(** A pattern whose characters, but perhaps the last, are not the separator:
    if it begins the collapsed string, it begins the string. *)
Lemma collapse_startswith u v x :
  mentions u "/" = false → v = EmptyString ∨ v = "/" →
  startswith (replace_scan "//" "/" 0 x) (u +:+ v) = true →
  startswith x (u +:+ v) = true.
Proof.
  intros Hu Hv. revert x. induction u as [|c u IH]; intros x.
  - destruct Hv as [-> | ->]; [done |]. cbn [String.append]. by rewrite collapse_first.
  - cbn [mentions] in Hu. apply orb_false_iff in Hu as [Hc Hu].
    destruct x as [|a x]; [done |].
    destruct (collapse_cases a x) as [(-> & x' & -> & ->) | [_ ->]].
    + cbn [String.append startswith]. rewrite Ascii.eqb_sym, Hc. done.
    + cbn [String.append startswith]. destruct (Ascii.eqb c a); [by apply IH | done].
Qed.

(** The collapse makes no occurrence of such a pattern, when its first
    character is not the separator either. *)
Lemma collapse_contains a u v n x :
  a ≠ "/"%char → mentions u "/" = false → v = EmptyString ∨ v = "/" →
  (String.length x ≤ n)%nat →
  contains x (String a (u +:+ v)) = false →
  contains (replace_scan "//" "/" 0 x) (String a (u +:+ v)) = false.
Proof.
  intros Ha Hu Hv. revert x. induction n as [|n IH]; intros x Hn Hx.
  - destruct x; [done | cbn [String.length] in Hn; lia].
  - destruct x as [|b x]; [done |].
    cbn [String.length] in Hn. cbn [contains] in Hx.
    apply orb_false_iff in Hx as [Hb Hx].
    destruct (collapse_cases b x) as [(-> & x' & -> & ->) | [_ ->]].
    + cbn [contains]. apply orb_false_iff. split.
      * cbn [startswith]. by apply Ascii.eqb_neq in Ha as ->.
      * apply IH; [cbn [String.length] in Hn; lia |]. by apply contains_tail in Hx.
    + cbn [contains]. apply orb_false_iff. split; [| apply IH; [lia | done]].
      cbn [startswith] in Hb |- *. destruct (Ascii.eqb a b); [| done].
      destruct (startswith (replace_scan "//" "/" 0 x) (u +:+ v)) eqn:Hs; [| done].
      by rewrite (collapse_startswith u v x Hu Hv Hs) in Hb.
Qed.

(** The path of any name, for a bucket without separator: the name behind a
    separator, collapsed, between the folder of the store and the
    extension. *)
Lemma generate_s3_uri_collapse bucket name :
  mentions bucket "/" = false →
  _generate_s3_uri (mkDFStore store_prefix bucket) name
  = s3_root bucket +:+ "df_store" +:+ replace (String "/" name) "//" "/" +:+ ".parquet".
Proof.
  intros Hb. unfold _generate_s3_uri, s3_root, replace, store_prefix. cbn [df_bucket prefix].
  rewrite (replace_scan_app_clean "/" "/" "/" bucket _ Hb).
  rewrite !app_assoc'. f_equal. f_equal.
  change ("/" +:+ "df_store/" +:+ name +:+ ".parquet")
    with (String "/" ("df_store" +:+ (String "/" name +:+ String "." "parquet"))).
  rewrite replace_scan_miss by reflexivity.
  rewrite (replace_scan_app_clean "/" "/" "/" "df_store") by reflexivity.
  rewrite replace_scan_app_split; [| done | cbn [String.length]; lia].
  reflexivity.
Qed.

(** The collapsed name begins with the separator. *)
Lemma collapse_slash name :
  ∃ t, replace_scan "//" "/" 0 (String "/" name) = String "/" t.
Proof.
  destruct (collapse_cases "/" name) as [(_ & x' & -> & ->) | [_ ->]]; eauto.
Qed.

(** Decoding the storage key of a legal name gives the name behind a
    separator, collapsed. *)
Lemma name_of_storage_key_collapse bucket name :
  mentions bucket "/" = false →
  contains name store_prefix = false →
  contains name ".parquet" = false →
  name_of_key (mkDFStore store_prefix bucket)
              (storage_key (mkDFStore store_prefix bucket) name)
  = replace (String "/" name) "//" "/".
Proof.
  intros Hb Hp He. unfold store_prefix in Hp.
  unfold storage_key, key_of_path. cbn [df_bucket].
  rewrite generate_s3_uri_collapse by done. rewrite slice_from_app.
  unfold replace.
  destruct (collapse_slash name) as [t Ht].
  assert (Hpre : contains (String "/" t) "df_store/" = false).
  { rewrite <- Ht.
    apply (collapse_contains "d" "f_store" "/" (String.length (String "/" name)));
      [done | done | by right | lia |].
    change (String "d" ("f_store" +:+ "/")) with "df_store/".
    cbn [contains]. by rewrite Hp. }
  assert (Hext : contains (String "/" t) ".parquet" = false).
  { rewrite <- Ht.
    apply (collapse_contains "." "parquet" "" (String.length (String "/" name)));
      [done | done | by left | lia |].
    change (String "." ("parquet" +:+ "")) with ".parquet".
    cbn [contains]. by rewrite He. }
  rewrite Ht.
  unfold name_of_key, replace, store_prefix. cbn [prefix].
  change ("df_store" +:+ String "/" t +:+ ".parquet")
    with ("df_store/" +:+ (t +:+ ".parquet")).
  rewrite replace_scan_hit.
  rewrite replace_scan_none.
  - change ("/" +:+ t +:+ ".parquet") with (String "/" t +:+ ".parquet" +:+ "").
    by apply item0_split.
  - rewrite (contains_app_fresh _ "df_store/" "." "parquet"); [| done | done].
    by rewrite (contains_tail _ _ _ Hpre).
Qed.

(** The name behind a separator collapses to the name itself exactly when the
    name is canonical. *)
Lemma collapse_canonical name :
  replace (String "/" name) "//" "/" = name ↔ canonical_name name = true.
Proof.
  unfold replace, canonical_name. split.
  - intros Hfix. destruct (collapse_slash name) as [t Ht].
    rewrite Ht in Hfix. subst name.
    cbn [startswith slice_from]. rewrite Ascii.eqb_refl. cbn [andb].
    rewrite collapse_hit in Ht. injection Ht as Ht.
    apply negb_true_iff. by apply collapse_fixed.
  - intros [Hs Hn%negb_true_iff]%andb_true_iff.
    destruct name as [|c n]; [done |]. cbn [startswith] in Hs.
    destruct (Ascii.eqb_spec "/" c) as [<-|]; [| done].
    cbn [slice_from] in Hn. rewrite collapse_hit. by rewrite replace_scan_none.
Qed.

(** Whatever the bucket and the name, the path ends with the extension. *)
Lemma generate_s3_uri_tail self name :
  _generate_s3_uri self name
  = "s3://"
    +:+ replace (df_bucket self +:+ "/" +:+ prefix self +:+ name) "//" "/"
    +:+ ".parquet".
Proof.
  unfold _generate_s3_uri, replace. f_equal.
  replace (df_bucket self +:+ "/" +:+ prefix self +:+ name +:+ ".parquet")
    with ((df_bucket self +:+ "/" +:+ prefix self +:+ name) +:+ String "." "parquet")
    by (by rewrite !app_assoc').
  rewrite replace_scan_app_split; [done | done | lia].
Qed.

Lemma endswith_extension x : endswith (x +:+ ".parquet") "/" = false.
Proof.
  induction x as [|c x IH]; [reflexivity |].
  cbn [String.append endswith]. rewrite IH, orb_false_r.
  cbn [String.eqb]. destruct (Ascii.eqb c "/"); [| done].
  by destruct x.
Qed.

(** The folder of the dataset of a name is its path and a separator. *)
Lemma path_root_generate self name :
  path_root (_generate_s3_uri self name) = _generate_s3_uri self name +:+ "/".
Proof.
  unfold path_root. rewrite generate_s3_uri_tail at 1.
  rewrite <- app_assoc'. by rewrite endswith_extension.
Qed.

End Collapse.
(** ** More on the string methods and the name/key mapping *)

Section NameCodecMore.
Import PyStr.
#[local] Arguments String.append !s1 s2 /.
#[local] Arguments Ascii.eqb : simpl never.

(** The first piece of a split is the start of the string. *)
Lemma split_first_prefix sep s :
  ∃ r, s = fst (split_scan sep O s) +:+ r.
Proof.
  induction s as [|c s [r IH]]; [by exists EmptyString |].
  cbn [split_scan]. destruct (startswith (String c s) sep).
  - destruct (split_scan sep (Nat.pred (String.length sep)) s).
    by exists (String c s).
  - destruct (split_scan sep O s) as [p ps]. cbn [fst] in *.
    exists r. cbn [String.append]. by rewrite <- IH.
Qed.

(** The first piece of a split does not contain the separator. *)
Lemma split_first_no_sep sep s :
  sep ≠ EmptyString → contains (fst (split_scan sep O s)) sep = false.
Proof.
  intros Hsep. induction s as [|c s IH].
  - cbn. by destruct sep.
  - cbn [split_scan]. destruct (startswith (String c s) sep) eqn:Hm.
    + destruct (split_scan sep (Nat.pred (String.length sep)) s). cbn. by destruct sep.
    + destruct (split_first_prefix sep s) as [r Hr].
      destruct (split_scan sep O s) as [p ps]. cbn [fst] in *.
      cbn [contains]. rewrite IH, orb_false_r.
      destruct (startswith (String c p) sep) eqn:Hp; [| done].
      apply (startswith_app_mono _ _ r) in Hp.
      cbn [String.append] in Hp. rewrite <- Hr in Hp. congruence.
Qed.

(** X9. Whatever the bucket and the name, the path [_generate_s3_uri] gives
    begins with the scheme and ends with the extension, which the collapse of
    separators leaves alone. *)
Theorem generate_s3_uri_scheme_and_extension self name :
  _generate_s3_uri self name
  = "s3://"
    +:+ replace (df_bucket self +:+ "/" +:+ prefix self +:+ name) "//" "/"
    +:+ ".parquet".
Proof.
  unfold _generate_s3_uri, replace. f_equal.
  replace (df_bucket self +:+ "/" +:+ prefix self +:+ name +:+ ".parquet")
    with ((df_bucket self +:+ "/" +:+ prefix self +:+ name) +:+ String "." "parquet")
    by (by rewrite !app_assoc').
  rewrite replace_scan_app_split; [done | done | lia].
Qed.

(** A name and the same name behind a separator have the same path. *)
Lemma generate_s3_uri_leading_slash bucket name :
  mentions bucket "/" = false →
  contains name "//" = false → startswith name "/" = false →
  _generate_s3_uri (mkDFStore store_prefix bucket) (String "/" name)
  = _generate_s3_uri (mkDFStore store_prefix bucket) name.
Proof.
  intros Hb Hs Hn.
  assert (Hs' : contains (String "/" name) "//" = false).
  { cbn [contains]. rewrite Hs, orb_false_r. cbn [startswith].
    rewrite Ascii.eqb_refl. destruct name as [|c n]; [done |].
    cbn [startswith] in Hn |- *. by destruct (Ascii.eqb "/" c). }
  rewrite !generate_s3_uri_shape by done.
  unfold unslash. rewrite Hn. cbn [startswith slice_from].
  by rewrite Ascii.eqb_refl.
Qed.

(** X7. Every key under the prefix of the store decodes to a name that begins
    with the separator. *)
Theorem name_of_key_begins_with_slash self k :
  prefix self ≠ EmptyString →
  startswith (name_of_key self (prefix self +:+ k)) "/" = true.
Proof.
  intros Hp. unfold name_of_key, replace.
  destruct (prefix self) as [|a p] eqn:Hpre; [done |].
  rewrite replace_scan_hit. unfold split, item0.
  change ("/" +:+ replace_scan (String a p) "/" 0 k)
    with (String "/" (replace_scan (String a p) "/" 0 k)).
  cbn [split_scan].
  replace (startswith (String "/" (replace_scan (String a p) "/" 0 k)) ".parquet")
    with false by (cbn [startswith]; by replace (Ascii.eqb "." "/") with false by done).
  destruct (split_scan _ _ _) as [q qs]. cbn. by rewrite Ascii.eqb_refl.
Qed.

(** X8. No decoded name contains the extension, whatever the key. *)
Theorem name_of_key_without_extension self full_key :
  contains (name_of_key self full_key) ".parquet" = false.
Proof.
  unfold name_of_key, split, item0.
  pose proof (split_first_no_sep ".parquet"
                (replace full_key (prefix self) "/")) as Hn.
  destruct (split_scan _ _ _) as [p ps]. cbn [fst head default] in *.
  by apply Hn.
Qed.

(** X6. The keys of the part files of a dataset, which extend the storage key of
    its name, all decode to the one name: the name itself behind the
    separator. *)
Theorem part_file_keys_decode_to_name bucket name rest :
  let self := mkDFStore store_prefix bucket in
  mentions bucket "/" = false →
  legal_name self name = true → contains name "//" = false →
  name_of_key self (storage_key self name +:+ rest) = String "/" (unslash name).
Proof.
  intros self Hb Hl Hs. unfold legal_name in Hl. cbn [prefix self] in Hl.
  apply andb_true_iff in Hl as [[_ Hp%negb_true_iff]%andb_true_iff He%negb_true_iff].
  by apply name_of_listed_key.
Qed.

End NameCodecMore.

Section NameCodecClaims.
Import PyStr.

(** C3, amended. For a bucket name without separator and a legal name,
    decoding the storage key of the name gives the name behind a separator,
    with every doubled separator collapsed; that is the name itself exactly
    when the name is canonical, that is, begins with the separator and has no
    doubled separator after its first character; and canonical legal names
    with the same storage key are the same name. *)
Theorem name_codec_inverse_on_slash_names bucket name :
  let self := mkDFStore store_prefix bucket in
  mentions bucket "/" = false →
  legal_name self name = true →
  name_of_key self (storage_key self name) = replace (String "/" name) "//" "/"
  ∧ (name_of_key self (storage_key self name) = name ↔ canonical_name name = true)
  ∧ (∀ name', legal_name self name' = true →
       canonical_name name = true → canonical_name name' = true →
       storage_key self name = storage_key self name' → name = name').
Proof.
  intros self Hb Hl.
  assert (Hdec : ∀ n, legal_name self n = true →
            name_of_key self (storage_key self n) = replace (String "/" n) "//" "/").
  { intros n Hn. unfold legal_name in Hn. cbn [prefix self] in Hn.
    apply andb_true_iff in Hn as [[_ Hp%negb_true_iff]%andb_true_iff He%negb_true_iff].
    by apply name_of_storage_key_collapse. }
  split; [by apply Hdec |]. split.
  - rewrite (Hdec name Hl). apply collapse_canonical.
  - intros name' Hl' Hc Hc' Hk.
    apply collapse_canonical in Hc, Hc'.
    rewrite <- Hc, <- Hc', <- (Hdec name Hl), <- (Hdec name' Hl'). by rewrite Hk.
Qed.

(** X5. On such names that begin with the separator the mapping to paths is
    injective. *)
Lemma generate_s3_uri_inj bucket n1 n2 :
  let self := mkDFStore store_prefix bucket in
  mentions bucket "/" = false →
  legal_name self n1 = true → legal_name self n2 = true →
  contains n1 "//" = false → contains n2 "//" = false →
  startswith n1 "/" = true → startswith n2 "/" = true →
  _generate_s3_uri self n1 = _generate_s3_uri self n2 → n1 = n2.
Proof.
  intros self Hb Hl1 Hl2 Hs1 Hs2 Hn1 Hn2 Heq.
  unfold legal_name in Hl1, Hl2. cbn [prefix self] in Hl1, Hl2.
  apply andb_true_iff in Hl1 as [[_ Hp1%negb_true_iff]%andb_true_iff He1%negb_true_iff].
  apply andb_true_iff in Hl2 as [[_ Hp2%negb_true_iff]%andb_true_iff He2%negb_true_iff].
  rewrite <- (unslash_slash n1 Hn1), <- (unslash_slash n2 Hn2).
  rewrite <- (name_of_storage_key bucket n1 Hb Hs1 Hp1 He1).
  rewrite <- (name_of_storage_key bucket n2 Hb Hs2 Hp2 He2).
  unfold storage_key. fold self. by rewrite Heq.
Qed.

End NameCodecClaims.

(** ** Runs of the remote calls and of the methods *)

Section Runs.
Context `{TableCodec blob} `{Wrangler}.
Implicit Types (w : world blob) (e : exn) (self : DFStore) (name path : string).
Implicit Types (o : gmap string (s3_object blob)).

Lemma outcome_called i c w : outcome i (called c w) = outcome (S i) w.
Proof. unfold outcome, called. cbn [pending]. by rewrite lookup_tail. Qed.

Lemma outcome_logged i r w : outcome i (logged r w) = outcome i w.
Proof. done. Qed.

Lemma outcome_stored i o w : outcome i (stored o w) = outcome i w.
Proof. done. Qed.

Lemma remote_through c w :
  outcome 0 w = None → remote c w = (Return (), called c w).
Proof. unfold remote. by intros ->. Qed.

Lemma remote_fails c w e :
  outcome 0 w = Some e → remote c w = (Raise e, called c w).
Proof. unfold remote. by intros ->. Qed.

(** *** What a path selects *)

Lemma lookup_selected path o k v :
  selected path o !! k = Some v ↔ o !! k = Some v ∧ selects path k = true.
Proof. unfold selected. by rewrite map_lookup_filter_Some. Qed.

Lemma lookup_unselected path o k v :
  unselected path o !! k = Some v ↔ o !! k = Some v ∧ selects path k = false.
Proof. unfold unselected. by rewrite map_lookup_filter_Some. Qed.

(** What a path selects is not among what it leaves. *)
Lemma selected_unselected path o : selected path (unselected path o) = ∅.
Proof.
  apply map_empty. intros k. apply eq_None_not_Some. intros [v Hv].
  apply lookup_selected in Hv as [Hv Hs]. apply lookup_unselected in Hv as [_ Hn].
  congruence.
Qed.

(** A path that selects nothing leaves everything. *)
Lemma unselected_all path o : selected path o = ∅ → unselected path o = o.
Proof.
  intros He. apply map_eq. intros k. apply option_eq. intros v.
  rewrite lookup_unselected. split; [by intros [? _] |]. intros Hv. split; [done |].
  destruct (selects path k) eqn:Hs; [| done].
  assert (selected path o !! k = Some v) as Hin by (by apply lookup_selected).
  rewrite He, lookup_empty in Hin. done.
Qed.

Lemma selected_empty_iff path o :
  selected path o = ∅ ↔ ∀ k, is_Some (o !! k) → selects path k = false.
Proof.
  split.
  - intros He k [v Hv]. destruct (selects path k) eqn:Hs; [| done].
    assert (selected path o !! k = Some v) as Hin by (by apply lookup_selected).
    rewrite He, lookup_empty in Hin. done.
  - intros Hall. apply map_empty. intros k. apply eq_None_not_Some. intros [v Hv].
    apply lookup_selected in Hv as [Hv Hs]. rewrite (Hall k) in Hs; eauto. done.
Qed.

(** *** The calls of the library *)

Lemma read_parquet_fails path w e :
  outcome 0 w = Some e →
  wr_s3_read_parquet path w = (Raise e, called (Call_read_parquet path) w).
Proof.
  intros He. unfold wr_s3_read_parquet, mbind, M_bind.
  by rewrite (remote_fails _ _ _ He).
Qed.

Lemma read_parquet_one path w k v :
  outcome 0 w = None → selected path (objects w) = {[k := v]} →
  wr_s3_read_parquet path w
  = (Return (of_blob (Body v)), called (Call_read_parquet path) w).
Proof.
  intros Hq Ho. unfold wr_s3_read_parquet, mbind, M_bind.
  rewrite (remote_through _ _ Hq). cbn [read_world called objects].
  by rewrite Ho, map_to_list_singleton.
Qed.

Lemma read_parquet_absent path w :
  outcome 0 w = None → selected path (objects w) = ∅ →
  wr_s3_read_parquet path w
  = (Raise (NoFilesFound ("No files Found on: " +:+ path +:+ ".")),
     called (Call_read_parquet path) w).
Proof.
  intros Hq Ho. unfold wr_s3_read_parquet, mbind, M_bind.
  rewrite (remote_through _ _ Hq). cbn [read_world called objects].
  by rewrite Ho, map_to_list_empty.
Qed.

(** The read changes nothing but the trace, whatever it finds. *)
Lemma read_parquet_world path w :
  snd (wr_s3_read_parquet path w) = called (Call_read_parquet path) w.
Proof.
  unfold wr_s3_read_parquet, mbind, M_bind, remote.
  destruct (outcome 0 w); [done |]. cbn [read_world called objects].
  by destruct (map_to_list _).
Qed.

(** What the read gives depends on the next outcome and on what the path
    selects only. *)
Lemma read_parquet_result path w1 w2 :
  outcome 0 w1 = outcome 0 w2 →
  selected path (objects w1) = selected path (objects w2) →
  fst (wr_s3_read_parquet path w1) = fst (wr_s3_read_parquet path w2).
Proof.
  intros Hq Ho. unfold wr_s3_read_parquet, mbind, M_bind, remote.
  rewrite Hq. destruct (outcome 0 w2); [done |]. cbn [read_world called objects].
  rewrite Ho. by destruct (map_to_list _).
Qed.

Lemma to_parquet_through df path w :
  outcome 0 w = None →
  wr_s3_to_parquet df path w
  = (Return (),
     stored (<[path_root path +:+ part_name (clock w) :=
                 mkObject (to_blob df) (blob_size (to_blob df)) (clock w)]>
               (unselected (path_root path) (objects w)))
            (called (Call_to_parquet path) w)).
Proof.
  intros Hq. unfold wr_s3_to_parquet, mbind, M_bind.
  by rewrite (remote_through _ _ Hq).
Qed.

Lemma to_parquet_fails df path w e :
  outcome 0 w = Some e →
  wr_s3_to_parquet df path w = (Raise e, called (Call_to_parquet path) w).
Proof.
  intros He. unfold wr_s3_to_parquet, mbind, M_bind.
  by rewrite (remote_fails _ _ _ He).
Qed.


Lemma list_objects_through path w :
  outcome 0 w = None →
  wr_s3_list_objects path w
  = (Return ((map_to_list (selected path (objects w))).*1),
     called (Call_list_objects path) w).
Proof.
  intros Hq. unfold wr_s3_list_objects, mbind, M_bind.
  by rewrite (remote_through _ _ Hq).
Qed.

(** The listing is empty exactly when the path selects nothing. *)
Lemma listed_nil_iff path o :
  (map_to_list (selected path o)).*1 = [] ↔ selected path o = ∅.
Proof.
  rewrite <- map_to_list_empty_iff. split; [| by intros ->].
  by destruct (map_to_list _).
Qed.

Lemma delete_objects_through path w :
  outcome 0 w = None →
  wr_s3_delete_objects path w
  = (Return (),
     stored (unselected path (objects w)) (called (Call_delete_objects path) w)).
Proof.
  intros Hq. unfold wr_s3_delete_objects, mbind, M_bind.
  by rewrite (remote_through _ _ Hq).
Qed.


Lemma list_objects_v2_fails Bucket Prefix w e :
  outcome 0 w = Some e →
  list_objects_v2 Bucket Prefix w
  = (Raise e, called (Call_list_objects_v2 Bucket Prefix) w).
Proof.
  intros He. unfold list_objects_v2, mbind, M_bind.
  by rewrite (remote_fails _ _ _ He).
Qed.

Lemma list_objects_v2_through Bucket Prefix w :
  outcome 0 w = None →
  list_objects_v2 Bucket Prefix w
  = (Return (match listing Bucket Prefix (objects w) with
             | [] => None
             | contents => Some contents
             end),
     called (Call_list_objects_v2 Bucket Prefix) w).
Proof.
  intros Hq. unfold list_objects_v2, mbind, M_bind.
  rewrite (remote_through _ _ Hq). cbn [read_world called objects].
  by destruct (listing _ _ _).
Qed.

(** *** [upsert] *)

Lemma upsert_table_through self name df w :
  outcome 0 w = None →
  upsert self name (PyDataFrame df) w
  = (Return (),
     logged (INFO, "Data '" +:+ name +:+ "' added/updated successfully in S3.")
       (stored (<[part_path self name w :=
                    mkObject (to_blob df) (blob_size (to_blob df)) (clock w)]>
                  (unselected (path_root (_generate_s3_uri self name)) (objects w)))
               (called (Call_to_parquet (_generate_s3_uri self name)) w))).
Proof.
  intros Hq. unfold upsert, try_except, mbind, M_bind.
  by rewrite (to_parquet_through _ _ _ Hq).
Qed.

Lemma upsert_table_fails self name df w e :
  outcome 0 w = Some e →
  upsert self name (PyDataFrame df) w
  = (Raise e,
     logged (CRITICAL, "Failed to add/update data '" +:+ name +:+ "': " +:+ exn_str e)
            (called (Call_to_parquet (_generate_s3_uri self name)) w)).
Proof.
  intros He. unfold upsert, try_except, mbind, M_bind.
  by rewrite (to_parquet_fails _ _ _ _ He).
Qed.

Lemma upsert_series self name s w :
  upsert self name (PySeries s) w = upsert self name (PyDataFrame (to_frame s)) w.
Proof. done. Qed.

(** The world after an [upsert] of a table that went through. *)
Lemma upsert_through_world self name df w :
  outcome 0 w = None →
  fst (upsert self name (PyDataFrame df) w) = Return ()
  ∧ objects (snd (upsert self name (PyDataFrame df) w))
    = <[part_path self name w :=
          mkObject (to_blob df) (blob_size (to_blob df)) (clock w)]>
        (unselected (path_root (_generate_s3_uri self name)) (objects w))
  ∧ (∀ i, outcome i (snd (upsert self name (PyDataFrame df) w)) = outcome (S i) w).
Proof.
  intros Hq. rewrite (upsert_table_through _ _ _ _ Hq). cbn [fst snd].
  split; [done |]. split; [done |]. intros i.
  by rewrite outcome_logged, outcome_stored, outcome_called.
Qed.

(** After a write to a dataset that its path reads, the path selects the
    part file written and nothing else. *)
Lemma selected_after_upsert self name df w :
  outcome 0 w = None → reads_own_dataset self name w →
  selected (_generate_s3_uri self name)
           (objects (snd (upsert self name (PyDataFrame df) w)))
  = {[part_path self name w :=
        mkObject (to_blob df) (blob_size (to_blob df)) (clock w)]}.
Proof.
  intros Hq [Hpart Hown].
  destruct (upsert_through_world self name df w Hq) as (_ & -> & _).
  apply map_eq. intros k. apply option_eq. intros v.
  rewrite lookup_selected, lookup_insert_Some, lookup_singleton_Some, lookup_unselected.
  split.
  - intros [[[-> ->] | (Hne & Hv & Hn)] Hs]; [done |].
    assert (selects (path_root (_generate_s3_uri self name)) k = true) as Ht.
    { apply Hown; [by exists v | done]. }
    congruence.
  - intros [<- <-]. split; [by left | done].
Qed.

(** *** [get] *)

Lemma get_one self name w k v :
  outcome 0 w = None →
  selected (_generate_s3_uri self name) (objects w) = {[k := v]} →
  get self name w
  = (Return (of_blob (Body v)), called (Call_read_parquet (_generate_s3_uri self name)) w).
Proof.
  intros Hq Ho. unfold get, try_except, mbind, M_bind.
  by rewrite (read_parquet_one _ _ _ _ Hq Ho).
Qed.

Lemma get_absent self name w :
  outcome 0 w = None →
  selected (_generate_s3_uri self name) (objects w) = ∅ →
  get self name w
  = (Raise (NoFilesFound ("No files Found on: " +:+ _generate_s3_uri self name +:+ ".")),
     called (Call_read_parquet (_generate_s3_uri self name)) w).
Proof.
  intros Hq Ho. unfold get, try_except, mbind, M_bind.
  by rewrite (read_parquet_absent _ _ Hq Ho).
Qed.

Lemma get_fails self name w e :
  outcome 0 w = Some e →
  get self name w
  = if is_ClientError e
    then (Return DataFrame_empty,
          logged (WARNING, "Data '" +:+ name +:+ "' not found in S3.")
                 (called (Call_read_parquet (_generate_s3_uri self name)) w))
    else (Raise e, called (Call_read_parquet (_generate_s3_uri self name)) w).
Proof.
  intros He. unfold get, try_except, mbind, M_bind.
  rewrite (read_parquet_fails _ _ _ He). by destruct e.
Qed.

(** When the read goes through, [get] gives what the read gives. *)
Lemma get_through self name w :
  outcome 0 w = None →
  get self name w = wr_s3_read_parquet (_generate_s3_uri self name) w.
Proof.
  intros Hq. unfold get, try_except, mbind at 1, M_bind.
  unfold wr_s3_read_parquet, mbind, M_bind. rewrite (remote_through _ _ Hq).
  cbn [read_world called objects]. by destruct (map_to_list _).
Qed.

(** *** [delete] *)


Lemma delete_absent self name w :
  outcome 0 w = None →
  selected (_generate_s3_uri self name) (objects w) = ∅ →
  delete_ self name w
  = (Return (),
     logged (WARNING, "Data '" +:+ name +:+ "' does not exist in S3. Cannot delete.")
            (called (Call_list_objects (_generate_s3_uri self name)) w)).
Proof.
  intros Hq Ho. unfold delete_, mbind at 1, M_bind.
  rewrite (list_objects_through _ _ Hq), Ho, map_to_list_empty. done.
Qed.

Lemma delete_present self name w :
  outcome 0 w = None → outcome 1 w = None →
  selected (_generate_s3_uri self name) (objects w) ≠ ∅ →
  delete_ self name w
  = (Return (),
     logged (INFO, "Data '" +:+ name +:+ "' deleted successfully from S3.")
       (stored (unselected (_generate_s3_uri self name) (objects w))
          (called (Call_delete_objects (_generate_s3_uri self name))
             (called (Call_list_objects (_generate_s3_uri self name)) w)))).
Proof.
  intros Hq Hq' Ho. unfold delete_, mbind at 1, M_bind.
  rewrite (list_objects_through _ _ Hq).
  destruct ((map_to_list (selected _ (objects w))).*1) as [|p ps] eqn:Hl.
  { by apply listed_nil_iff in Hl. }
  unfold try_except, mbind, M_bind.
  rewrite delete_objects_through by (by rewrite outcome_called).
  done.
Qed.


(** *** [details] *)

Lemma details_fails self w e :
  outcome 0 w = Some e →
  details self w
  = (Return (DataFrame_columns failure_columns),
     logged (ERROR, "Failed to get object details: " +:+ exn_str e)
            (called (Call_list_objects_v2 (df_bucket self) (prefix self)) w)).
Proof.
  intros He. unfold details, try_except, mbind, M_bind.
  by rewrite (list_objects_v2_fails _ _ _ _ He).
Qed.

Lemma details_through self w :
  outcome 0 w = None →
  details self w
  = (Return (DataFrame_rows
               (detail_row self <$> listing (df_bucket self) (prefix self) (objects w))
               detail_columns),
     called (Call_list_objects_v2 (df_bucket self) (prefix self)) w).
Proof.
  intros Hq. unfold details, try_except, mbind, M_bind.
  rewrite (list_objects_v2_through _ _ _ Hq).
  by destruct (listing _ _ _).
Qed.

Lemma listing_empty Bucket Prefix :
  listing Bucket Prefix (∅ : gmap string (s3_object blob)) = [].
Proof. unfold listing. by rewrite map_to_list_empty. Qed.

(** On a store without objects, a listing that goes through gives the table
    without rows over [detail_columns], and nothing is logged. *)
Lemma details_empty_store self w :
  outcome 0 w = None → objects w = ∅ →
  details self w
  = (Return (DataFrame_columns detail_columns),
     called (Call_list_objects_v2 (df_bucket self) (prefix self)) w).
Proof.
  intros Hq Ho. rewrite (details_through _ _ Hq), Ho, listing_empty. done.
Qed.

(** *** The claims about [upsert], [get], [delete] and [details] *)

(** After an [upsert] that went through, to a dataset that its path reads,
    [get] gives what the codec makes of the table that was written. *)
Lemma get_after_upsert self name df w :
  quiet 2 w → reads_own_dataset self name w →
  fst (upsert self name (PyDataFrame df) w) = Return ()
  ∧ fst (get self name (snd (upsert self name (PyDataFrame df) w)))
    = Return (of_blob (to_blob df)).
Proof.
  intros Hq Hown.
  assert (Hq0 : outcome 0 w = None) by (apply Hq; lia).
  assert (Hq1 : outcome 1 w = None) by (apply Hq; lia).
  destruct (upsert_through_world self name df w Hq0) as (Hr & _ & Hp).
  split; [done |].
  rewrite (get_one self name _ _ _ ltac:(by rewrite Hp)
             (selected_after_upsert self name df w Hq0 Hown)).
  done.
Qed.

(** C1, amended. Round trip: after [upsert(n, T)] of a supported table, on a
    store whose next two calls go through and for a name whose path reads its
    own dataset, [get(n)] returns a table equal to [T]: same column names,
    same order, same values. *)
Theorem upsert_then_get_roundtrip self name T w :
  supported T → quiet 2 w → reads_own_dataset self name w →
  fst (upsert self name (PyDataFrame T) w) = Return ()
  ∧ fst (get self name (snd (upsert self name (PyDataFrame T) w))) = Return T.
Proof.
  intros HT Hq Hown.
  destruct (get_after_upsert self name T w Hq Hown) as [-> ->].
  split; [done |]. f_equal. exact HT.
Qed.

(** C2. A name that was never written: the remote call goes through, finds
    nothing and reports it as [NoFilesFound]; [get] does not catch that and
    raises it to the caller instead of returning an empty table. *)
Theorem get_never_written_raises self name w :
  outcome 0 w = None →
  selected (_generate_s3_uri self name) (objects w) = ∅ →
  fst (get self name w)
  = Raise (NoFilesFound ("No files Found on: " +:+ _generate_s3_uri self name +:+ "."))
  ∧ fst (get self name w) ≠ Return DataFrame_empty.
Proof.
  intros Hq Ho. rewrite (get_absent _ _ _ Hq Ho). by split.
Qed.

(** C5. When the remote write of [upsert] raises [e], for a table or a
    series, [upsert] logs at critical level and raises the same [e]. *)
Theorem upsert_reraises_write_failure self name data w e :
  is_DataFrame data || is_Series data = true →
  outcome 0 w = Some e →
  upsert self name data w
  = (Raise e,
     logged (CRITICAL, "Failed to add/update data '" +:+ name +:+ "': " +:+ exn_str e)
            (called (Call_to_parquet (_generate_s3_uri self name)) w)).
Proof.
  intros Hd He. destruct data as [| | | | df | s |]; try discriminate Hd.
  - by apply upsert_table_fails.
  - rewrite upsert_series. by apply upsert_table_fails.
Qed.

(** C6. A payload that is neither a table nor a series: [upsert] raises
    [ValueError] and the world is what it was; no remote call was made, no
    outcome consumed, nothing stored, nothing logged. *)
Theorem upsert_rejects_other_payloads self name data w :
  is_DataFrame data = false → is_Series data = false →
  upsert self name data w
  = (Raise (ValueError "Only Pandas DataFrame or Series objects are supported."), w).
Proof. intros Hd Hs. by destruct data. Qed.


(** C8, amended. [get] does not look at the error code: for every
    [ClientError], [AccessDenied] included, it logs a warning and returns
    the empty table; an exception that is not a [ClientError] is raised to
    the caller as it is, with nothing logged. *)
Theorem get_on_remote_error self name w e :
  outcome 0 w = Some e →
  (is_ClientError e = true →
   get self name w
   = (Return DataFrame_empty,
      logged (WARNING, "Data '" +:+ name +:+ "' not found in S3.")
             (called (Call_read_parquet (_generate_s3_uri self name)) w)))
  ∧ (is_ClientError e = false →
     get self name w
     = (Raise e, called (Call_read_parquet (_generate_s3_uri self name)) w)).
Proof.
  intros He. rewrite (get_fails _ _ _ _ He). split; by intros ->.
Qed.

(** C9. When the listing raises, [details] logs the error and returns a
    table without rows whose columns are those of [failure_columns]: it has
    a ["created"] column that the table of a listing that went through (with
    or without objects) does not have. *)
Theorem details_failure_columns self w e :
  outcome 0 w = Some e →
  details self w
  = (Return (DataFrame_columns failure_columns),
     logged (ERROR, "Failed to get object details: " +:+ exn_str e)
            (called (Call_list_objects_v2 (df_bucket self) (prefix self)) w))
  ∧ (∀ w', outcome 0 w' = None →
       ∃ df, fst (details self w') = Return df
             ∧ columns df = LStr <$> detail_columns
             ∧ columns df ≠ columns (DataFrame_columns failure_columns)).
Proof.
  intros He. split; [by apply details_fails |].
  intros w' Hq. rewrite (details_through _ _ Hq). eexists. split; [done |].
  split; [done |]. cbn. discriminate.
Qed.

End Runs.
Section WrapperFacts.
Context {blob Args : Type}.
Implicit Types (w : world blob) (inner_func : Args → M blob pyvalue) (args : Args).

(** C10. The wrapper is transparent on success: what the wrapped function
    returns, the wrapper returns, in the same world. *)
Theorem wrapper_transparent_on_success resource_name inner_func args w v w' :
  inner_func args w = (Return v, w') →
  wrapper resource_name inner_func args w = (Return v, w').
Proof. intros Hr. unfold wrapper, try_except. by rewrite Hr. Qed.

(** C4. The wrapper on a call that raises [e]: a [ClientError] whose code is
    in [not_found_errors], and [NoFilesFound], give [None]; a [ClientError]
    with any other code is logged at critical level and raised again, the
    same exception; any other exception passes through as it is. *)
Theorem wrapper_classifies_errors resource_name inner_func args w e w' :
  inner_func args w = (Raise e, w') →
  (∀ code msg, e = ClientError code msg → code ∈ not_found_errors →
     wrapper resource_name inner_func args w
     = (Return PyNone,
        logged (WARNING, resource_name +:+ " not found: " +:+ code
                         +:+ ", returning None...") w'))
  ∧ (∀ msg, e = NoFilesFound msg →
     wrapper resource_name inner_func args w
     = (Return PyNone,
        logged (INFO, "Resource " +:+ resource_name +:+ " not found returning None...") w'))
  ∧ (∀ code msg, e = ClientError code msg → code ∉ not_found_errors →
     wrapper resource_name inner_func args w
     = (Raise e, logged (CRITICAL, "Critical error in AWS call: " +:+ code) w'))
  ∧ (∀ msg, e = ValueError msg → wrapper resource_name inner_func args w = (Raise e, w'))
  ∧ (∀ cls msg, e = OtherException cls msg →
     wrapper resource_name inner_func args w = (Raise e, w')).
Proof.
  intros Hr. unfold wrapper, try_except. rewrite Hr.
  split; [| split; [| split; [| split]]].
  - intros code msg -> Hin. by rewrite bool_decide_eq_true_2.
  - by intros msg ->.
  - intros code msg -> Hout. by rewrite bool_decide_eq_false_2.
  - by intros msg ->.
  - by intros cls msg ->.
Qed.

(** Used without arguments, the decorator wraps under the default resource
    name; used with a resource name, it gives the decorator itself. *)
Lemma not_found_returns_none_bare inner_func :
  not_found_returns_none (Some inner_func) None
  = inl (wrapper (blob := blob) "AWS resource" inner_func).
Proof. done. Qed.

Lemma not_found_returns_none_named resource_name :
  not_found_returns_none (blob := blob) (Args := Args) None (Some resource_name)
  = inr (wrapper resource_name).
Proof. done. Qed.

End WrapperFacts.

(** * Further properties of the store *)

Section StoreComposition.
Context `{TableCodec blob} `{Wrangler}.
Implicit Types (w : world blob) (e : exn) (self : DFStore) (name : string).

(** Names with one path are read alike. *)
Lemma get_same_path self n1 n2 w :
  _generate_s3_uri self n1 = _generate_s3_uri self n2 → outcome 0 w = None →
  fst (get self n1 w) = fst (get self n2 w).
Proof. intros Heq Hq. by rewrite !get_through, Heq. Qed.

(** What [get] gives depends on the next outcome and on what the path of the
    name selects only. *)
Lemma get_depends_on_selected self name w1 w2 :
  outcome 0 w1 = None → outcome 0 w2 = None →
  selected (_generate_s3_uri self name) (objects w1)
  = selected (_generate_s3_uri self name) (objects w2) →
  fst (get self name w1) = fst (get self name w2).
Proof.
  intros Hq1 Hq2 Ho. rewrite !get_through by done.
  apply read_parquet_result; [congruence | done].
Qed.

(** A way to check on a given store that a name reads its own dataset. *)
Lemma reads_own_dataset_checked self name w :
  selects (_generate_s3_uri self name) (part_path self name w) = true →
  forallb (λ kv, implb (selects (_generate_s3_uri self name) kv.1)
                       (selects (path_root (_generate_s3_uri self name)) kv.1))
          (map_to_list (objects w)) = true →
  reads_own_dataset self name w.
Proof.
  intros Hpart Hall. split; [done |]. intros k [v Hv] Hs.
  rewrite forallb_forall in Hall.
  specialize (Hall (k, v)). cbn [fst] in Hall. rewrite Hs in Hall.
  apply Hall. apply list_elem_of_In. by apply elem_of_map_to_list.
Defined.

(** A way to check a property of the paths of all stored objects. *)
Lemma stored_keys_checked (f : string → bool) w :
  forallb (λ kv, f kv.1) (map_to_list (objects w)) = true →
  ∀ k, is_Some (objects w !! k) → f k = true.
Proof.
  intros Hall k [v Hv]. rewrite forallb_forall in Hall.
  apply (Hall (k, v)). apply list_elem_of_In. by apply elem_of_map_to_list.
Defined.

(** X1. Series normalisation: a named series is stored as the table of its
    one column, under its name, and read back as that table. *)
Theorem get_after_upsert_series self name s nm w :
  sname s = Some (LStr nm) →
  supported (to_frame s) → quiet 2 w → reads_own_dataset self name w →
  fst (upsert self name (PySeries s) w) = Return ()
  ∧ fst (get self name (snd (upsert self name (PySeries s) w)))
    = Return (mkDataFrame [LStr nm] ((λ v, [v]) <$> svalues s)).
Proof.
  intros Hn Hs Hq Hown. rewrite upsert_series.
  destruct (get_after_upsert self name (to_frame s) w Hq Hown) as [-> ->].
  split; [done |]. f_equal. rewrite Hs. unfold to_frame. by rewrite Hn.
Qed.

(** X2. Last write wins: after [upsert(n, A)] and [upsert(n, B)], for a name
    that reads its own dataset after the first write, [get(n)] gives [B], and
    the path of the name selects one object, the part file of the second
    write. *)
Theorem upsert_overwrites self name A B w :
  supported B → quiet 3 w →
  let w1 := snd (upsert self name (PyDataFrame A) w) in
  let w2 := snd (upsert self name (PyDataFrame B) w1) in
  reads_own_dataset self name w1 →
  fst (upsert self name (PyDataFrame A) w) = Return ()
  ∧ fst (upsert self name (PyDataFrame B) w1) = Return ()
  ∧ fst (get self name w2) = Return B
  ∧ selected (_generate_s3_uri self name) (objects w2)
    = {[part_path self name w1 :=
          mkObject (to_blob B) (blob_size (to_blob B)) (clock w1)]}.
Proof.
  intros HB Hq w1 w2 Hown.
  assert (Hq0 : outcome 0 w = None) by (apply Hq; lia).
  destruct (upsert_through_world self name A w Hq0) as (Hr1 & _ & Hp1).
  fold w1 in Hp1.
  assert (Hq1' : quiet 2 w1).
  { intros i Hi. rewrite Hp1. apply Hq. lia. }
  split; [done |].
  destruct (get_after_upsert self name B w1 Hq1' Hown) as [Hr2 Hg]. fold w2 in Hg.
  split; [done |]. split; [rewrite Hg; f_equal; exact HB |].
  apply selected_after_upsert; [| done]. apply Hq1'. lia.
Qed.

(** X3. Writing one name leaves what [get] gives for another name as it was,
    when the path of the other name selects neither the part file written
    nor a stored object that the write replaces. *)
Theorem upsert_other_name self n1 n2 df w :
  quiet 2 w →
  selects (_generate_s3_uri self n2) (part_path self n1 w) = false →
  (∀ k, is_Some (objects w !! k) →
        selects (_generate_s3_uri self n2) k = true →
        selects (path_root (_generate_s3_uri self n1)) k = false) →
  fst (upsert self n1 (PyDataFrame df) w) = Return ()
  ∧ fst (get self n2 (snd (upsert self n1 (PyDataFrame df) w))) = fst (get self n2 w).
Proof.
  intros Hq Hpart Hkeep.
  assert (Hq0 : outcome 0 w = None) by (apply Hq; lia).
  assert (Hq1 : outcome 1 w = None) by (apply Hq; lia).
  destruct (upsert_through_world self n1 df w Hq0) as (Hr & Ho & Hp).
  split; [done |].
  apply get_depends_on_selected; [by rewrite Hp | done |].
  rewrite Ho. apply map_eq. intros k. apply option_eq. intros v.
  rewrite !lookup_selected, lookup_insert_Some, lookup_unselected.
  split.
  - intros [[[<- _] | (_ & Hv & _)] Hs]; [congruence | done].
  - intros [Hv Hs]. split; [| done]. right.
    split; [intros <-; congruence |]. split; [done |].
    apply Hkeep; [by exists v | done].
Qed.

(** X13. [delete] twice: after a deletion that went through, the second
    [delete] finds nothing, logs its warning, and leaves the store as it
    is. *)
Theorem delete_twice self name w :
  quiet 3 w → selected (_generate_s3_uri self name) (objects w) ≠ ∅ →
  let w1 := snd (delete_ self name w) in
  fst (delete_ self name w) = Return ()
  ∧ delete_ self name w1
    = (Return (),
       logged (WARNING, "Data '" +:+ name +:+ "' does not exist in S3. Cannot delete.")
              (called (Call_list_objects (_generate_s3_uri self name)) w1))
  ∧ objects (snd (delete_ self name w1)) = objects w1.
Proof.
  intros Hq Ho w1.
  assert (Hq0 : outcome 0 w = None) by (apply Hq; lia).
  assert (Hq1 : outcome 1 w = None) by (apply Hq; lia).
  assert (Hq2 : outcome 2 w = None) by (apply Hq; lia).
  pose proof (delete_present self name w Hq0 Hq1 Ho) as Hd.
  assert (Hw1 : outcome 0 w1 = None
                ∧ selected (_generate_s3_uri self name) (objects w1) = ∅).
  { unfold w1. rewrite Hd. cbn [snd]. split.
    - by rewrite outcome_logged, outcome_stored, !outcome_called.
    - cbn [logged stored objects]. apply selected_unselected. }
  destruct Hw1 as [Hq' Ho'].
  split; [by rewrite Hd |].
  rewrite (delete_absent self name w1 Hq' Ho'). done.
Qed.

(** X14. Writing a name of which the store holds nothing and deleting it
    again gives back the objects the store had: the write returns, the
    deletion returns, and the part file written is gone. *)
Theorem upsert_then_delete self name df w :
  quiet 3 w →
  selected (_generate_s3_uri self name) (objects w) = ∅ →
  selected (path_root (_generate_s3_uri self name)) (objects w) = ∅ →
  selects (_generate_s3_uri self name) (part_path self name w) = true →
  let w1 := snd (upsert self name (PyDataFrame df) w) in
  fst (upsert self name (PyDataFrame df) w) = Return ()
  ∧ fst (delete_ self name w1) = Return ()
  ∧ objects (snd (delete_ self name w1)) = objects w.
Proof.
  intros Hq Hnone Hroot Hpart w1.
  assert (Hq0 : outcome 0 w = None) by (apply Hq; lia).
  destruct (upsert_through_world self name df w Hq0) as (Hr & Ho1 & Hp).
  fold w1 in Ho1, Hp. rewrite (unselected_all _ _ Hroot) in Ho1.
  assert (Hq1 : outcome 0 w1 = None) by (rewrite Hp; apply Hq; lia).
  assert (Hq2 : outcome 1 w1 = None) by (rewrite Hp; apply Hq; lia).
  assert (Hin : selected (_generate_s3_uri self name) (objects w1) ≠ ∅).
  { intros He.
    assert (selected (_generate_s3_uri self name) (objects w1)
              !! part_path self name w
            = Some (mkObject (to_blob df) (blob_size (to_blob df)) (clock w))) as Hl.
    { apply lookup_selected. split; [| done]. rewrite Ho1. apply lookup_insert_eq. }
    rewrite He, lookup_empty in Hl. done. }
  split; [done |].
  rewrite (delete_present self name w1 Hq1 Hq2 Hin). cbn [fst snd logged stored objects].
  split; [done |]. rewrite Ho1.
  apply map_eq. intros k. apply option_eq. intros v.
  rewrite lookup_unselected, lookup_insert_Some. split.
  - intros [[[<- _] | [_ Hv]] Hs]; [congruence | done].
  - intros Hv.
    assert (Hk : selects (_generate_s3_uri self name) k = false).
    { apply (proj1 (selected_empty_iff _ _) Hnone). by exists v. }
    split; [| done]. right. split; [intros <-; congruence | done].
Qed.

(** X12. [get] only reads: whatever the remote answers, the objects and the
    clock of the store are what they were, and exactly one remote call was
    made, the read of the path of the name. *)
Theorem get_only_reads self name w :
  objects (snd (get self name w)) = objects w
  ∧ clock (snd (get self name w)) = clock w
  ∧ calls (snd (get self name w))
    = (calls w ++ [Call_read_parquet (_generate_s3_uri self name)])%list.
Proof.
  destruct (outcome 0 w) as [e|] eqn:Hq.
  - rewrite (get_fails _ _ _ _ Hq). by destruct (is_ClientError e).
  - rewrite (get_through _ _ _ Hq), read_parquet_world. done.
Qed.

(** X11. [details] never raises and only reads: it returns a table whatever
    the listing does, after exactly one remote call, with the objects of the
    store as they were. *)
Theorem details_never_raises self w :
  (∃ df, fst (details self w) = Return df)
  ∧ objects (snd (details self w)) = objects w
  ∧ calls (snd (details self w))
    = (calls w ++ [Call_list_objects_v2 (df_bucket self) (prefix self)])%list.
Proof.
  destruct (outcome 0 w) as [e|] eqn:Hq.
  - rewrite (details_fails _ _ _ Hq). eauto.
  - rewrite (details_through _ _ Hq). eauto.
Qed.

End StoreComposition.

Section StoreNames.
Context `{TableCodec blob} `{Wrangler}.
Implicit Types (w : world blob) (name : string).
Import PyStr.
#[local] Arguments String.append !s1 s2 /.

(** X4. A name and the same name behind a separator are one dataset: what
    was written under the one is read under the other. *)
Theorem leading_slash_is_optional bucket name T w :
  let self := mkDFStore store_prefix bucket in
  mentions bucket "/" = false →
  contains name "//" = false → startswith name "/" = false →
  supported T → quiet 2 w → reads_own_dataset self name w →
  fst (upsert self name (PyDataFrame T) w) = Return ()
  ∧ fst (get self (String "/" name) (snd (upsert self name (PyDataFrame T) w)))
    = Return T.
Proof.
  intros self Hb Hs Hn HT Hq Hown.
  assert (Hq0 : outcome 0 w = None) by (apply Hq; lia).
  destruct (upsert_through_world self name T w Hq0) as (Hr & _ & Hp).
  split; [done |].
  rewrite (get_same_path self (String "/" name) name).
  - destruct (get_after_upsert self name T w Hq Hown) as [_ ->]. f_equal. exact HT.
  - exact (generate_s3_uri_leading_slash bucket name Hb Hs Hn).
  - rewrite Hp. apply Hq. lia.
Qed.

(** X10. After the first [upsert] on a store without objects, [details]
    lists one row: the name behind a separator, the path of the part file
    written in the folder of the dataset, the size of the blob and the time
    of the write. *)
Theorem details_after_first_upsert bucket name df w :
  let self := mkDFStore store_prefix bucket in
  mentions bucket "/" = false →
  legal_name self name = true → contains name "//" = false →
  objects w = ∅ → quiet 2 w →
  fst (details self (snd (upsert self name (PyDataFrame df) w)))
  = Return (DataFrame_rows
              [[VStr (String "/" (unslash name));
                VStr (_generate_s3_uri self name +:+ "/" +:+ part_name (clock w));
                VInt (blob_size (to_blob df));
                VTime (clock w)]]
              detail_columns).
Proof.
  intros self Hb Hl Hs Hempty Hq.
  unfold legal_name in Hl. cbn [prefix self] in Hl.
  apply andb_true_iff in Hl as [[_ Hp%negb_true_iff]%andb_true_iff He%negb_true_iff].
  assert (Hq0 : outcome 0 w = None) by (apply Hq; lia).
  destruct (upsert_through_world self name df w Hq0) as (_ & Ho & Hout).
  rewrite details_through by (rewrite Hout; apply Hq; lia).
  cbn [fst]. rewrite Ho, Hempty. unfold unselected. rewrite map_filter_empty, insert_empty.
  unfold listing. rewrite map_to_list_singleton. cbn [omap list_omap df_bucket prefix self].
  assert (Hpath : part_path self name w
                  = s3_root bucket +:+ (storage_key self name
                                        +:+ "/" +:+ part_name (clock w))).
  { unfold part_path, storage_key, key_of_path. rewrite path_root_generate.
    unfold self. cbn [df_bucket]. rewrite generate_s3_uri_shape by done.
    rewrite slice_from_app. by rewrite !app_assoc'. }
  assert (Hstart : startswith (part_path self name w) (s3_root bucket +:+ store_prefix)
                   = true).
  { unfold part_path. rewrite path_root_generate. unfold self.
    rewrite generate_s3_uri_shape by done.
    rewrite <- (app_assoc' (s3_root bucket) store_prefix), !app_assoc'.
    rewrite <- (app_assoc' (s3_root bucket) store_prefix). apply startswith_self. }
  rewrite Hstart. cbn [fmap list_fmap].
  assert (Hkey : key_of_path bucket (part_path self name w)
                 = storage_key self name +:+ "/" +:+ part_name (clock w)).
  { rewrite Hpath. unfold key_of_path. apply slice_from_app. }
  unfold detail_row. cbn [Key listed_Size listed_LastModified Size LastModified].
  rewrite Hkey.
  assert (Hname : name_of_key self (storage_key self name +:+ "/" +:+ part_name (clock w))
                  = String "/" (unslash name))
    by exact (name_of_listed_key bucket name _ Hb Hs Hp He).
  assert (Hfile : s3_file_of_key self (storage_key self name +:+ "/" +:+ part_name (clock w))
                  = _generate_s3_uri self name +:+ "/" +:+ part_name (clock w)).
  { unfold s3_file_of_key. cbn [df_bucket self].
    transitivity (part_path self name w).
    - rewrite Hpath. unfold s3_root. by rewrite !app_assoc'.
    - unfold part_path. rewrite path_root_generate. by rewrite app_assoc'. }
  by rewrite Hname, Hfile.
Qed.

End StoreNames.
(** ** Names without wildcard characters *)

Section GlobFacts.
Context `{TableCodec blob}.
Implicit Types (w : world blob) (self : DFStore) (name path : string).
Import PyStr.
#[local] Arguments String.append !s1 s2 /.

Lemma has_wildcard_app a b :
  Glob.has_wildcard (a +:+ b) = Glob.has_wildcard a || Glob.has_wildcard b.
Proof.
  induction a as [|c a IH]; [done |].
  cbn [String.append Glob.has_wildcard]. by rewrite IH, orb_assoc.
Qed.

(** A path without wildcard characters selects the objects whose path it
    begins. *)
Lemma selects_plain path k :
  Glob.has_wildcard path = false → selects path k = startswith k path.
Proof.
  intros Hp. change (selects path k) with (Glob.selects path k).
  unfold Glob.selects. by rewrite Hp.
Qed.

(** A name whose path has no wildcard character reads its own dataset on
    every store where the path begins the path of no object outside the
    folder of the dataset. *)
Lemma plain_name_reads_own_dataset self name w :
  Glob.has_wildcard (_generate_s3_uri self name) = false →
  (∀ k, is_Some (objects w !! k) →
        startswith k (_generate_s3_uri self name) = true →
        startswith k (_generate_s3_uri self name +:+ "/") = true) →
  reads_own_dataset self name w.
Proof.
  intros Hp Hown. split.
  - rewrite (selects_plain _ _ Hp). unfold part_path.
    rewrite path_root_generate, app_assoc'. apply startswith_self.
  - intros k Hk Hs. rewrite (selects_plain _ _ Hp) in Hs.
    rewrite path_root_generate, selects_plain.
    + by apply Hown.
    + by rewrite has_wildcard_app, Hp.
Qed.

(** On a store without objects every such name reads its own dataset. *)
Lemma plain_name_reads_own_dataset_empty self name w :
  Glob.has_wildcard (_generate_s3_uri self name) = false → objects w = ∅ →
  reads_own_dataset self name w.
Proof.
  intros Hp He. apply plain_name_reads_own_dataset; [done |].
  intros k [v Hv]. by rewrite He, lookup_empty in Hv.
Qed.

End GlobFacts.
Section WrapperInversion.
Context {blob Args : Type}.
Implicit Types (w : world blob) (inner_func : Args → M blob pyvalue) (args : Args).

(** X15. What the wrapper raises: either the wrapped function raised it, and
    it is no error that the wrapper classifies (not [NoFilesFound], no
    [ClientError] with a code of [not_found_errors], and no [ClientError]
    without a code); or the wrapped function raised a [ClientError] whose
    response has no code, and the wrapper raises the [KeyError] of the
    look-up of the code, with nothing logged. *)
Theorem wrapper_raises_only_unclassified resource_name inner_func args w e w2 :
  wrapper resource_name inner_func args w = (Raise e, w2) →
  ((∃ w1, inner_func args w = (Raise e, w1))
   ∧ (∀ msg, e ≠ NoFilesFound msg)
   ∧ (∀ code msg, e = ClientError code msg → code ∉ not_found_errors)
   ∧ (∀ key msg, e ≠ ClientErrorWithout key msg))
  ∨ (∃ key msg, inner_func args w = (Raise (ClientErrorWithout key msg), w2)
                ∧ e = KeyError key).
Proof.
  unfold wrapper, try_except.
  destruct (inner_func args w) as [[v|e1] w1]; [done |].
  destruct e1 as [code msg| key msg | msg | msg | cls msg].
  - destruct (bool_decide (code ∈ not_found_errors)) eqn:Hd; intros Hw.
    + done.
    + unfold mbind, M_bind, log_at, raise in Hw. injection Hw as <- <-.
      left. split; [eauto |]. split; [done |]. split; [| done].
      intros ? ? [= <- <-]. by apply bool_decide_eq_false in Hd.
  - unfold raise. intros [= <- <-]. right. eauto.
  - done.
  - intros [= <- <-]. left. split; [eauto |]. by split.
  - intros [= <- <-]. left. split; [eauto |]. by split.
Qed.

(** X16. What the wrapper returns is what the wrapped function returned, or
    [None] in place of an error that counts as "not found". *)
Theorem wrapper_returns_value_or_none resource_name inner_func args w v w2 :
  wrapper resource_name inner_func args w = (Return v, w2) →
  inner_func args w = (Return v, w2)
  ∨ (v = PyNone
     ∧ ∃ e w1, inner_func args w = (Raise e, w1)
       ∧ ((∃ msg, e = NoFilesFound msg)
          ∨ (∃ code msg, e = ClientError code msg ∧ code ∈ not_found_errors))).
Proof.
  unfold wrapper, try_except.
  destruct (inner_func args w) as [[v1|e1] w1]; [intros [= <- <-]; by left |].
  destruct e1 as [code msg| key msg | msg | msg | cls msg]; try done.
  - destruct (bool_decide (code ∈ not_found_errors)) eqn:Hd; intros Hw; [| done].
    unfold mbind, M_bind, log_at, mret, M_ret in Hw. injection Hw as <- <-.
    right. split; [done |]. do 2 eexists. split; [done |]. right.
    do 2 eexists. split; [done |]. by apply bool_decide_eq_true in Hd.
  - unfold mbind, M_bind, log_at, mret, M_ret. intros [= <- <-].
    right. split; [done |]. do 2 eexists. split; [done |]. left. eauto.
Qed.

End WrapperInversion.
(** * The logger set-up *)

Section LoggerFacts.
Import Logger.

Lemma removeHandler_head h hs : removeHandler h (h :: hs) = hs.
Proof.
  unfold removeHandler. rewrite decide_True by apply list_elem_of_here.
  cbn [list_remove]. by rewrite decide_True.
Qed.

(** The loop that removes the handlers ends, within as many rounds as there
    are handlers, with none left. *)
Lemma remove_all_handlers_ends hs :
  remove_all_handlers (length hs) hs = Some [].
Proof.
  induction hs as [|h hs IH]; [done |].
  cbn [length remove_all_handlers]. by rewrite removeHandler_head.
Qed.

(** X17. The first [logging_setup] on a logger that is not set up: whatever
    handlers it had, it ends with the one stream handler on [sys.stdout], with
    the formatter asked for; it stops propagating; and its level is [DEBUG]
    when [SAGEWORKS_DEBUG], in lower case, is ["true"], and [INFO] otherwise,
    also when the variable is not set. *)
Theorem logging_setup_first color_logs p :
  _is_setup p = false →
  ∃ p', logging_setup (length (handlers p)) color_logs p = Some p'
    ∧ _is_setup p' = true
    ∧ propagate p' = false
    ∧ handlers p'
      = [mkHandler "sys.stdout"
           (Some (if color_logs then ColoredFormatter else PlainFormatter))]
    ∧ sagemaker_config_level p' = WARNING_NUM
    ∧ (lower (default "False" (SAGEWORKS_DEBUG p)) = "true" →
       logger_level p' = DEBUG_NUM
       ∧ debug_calls p'
         = (debug_calls p
            ++ ["Debugging enabled via SAGEWORKS_DEBUG environment variable."])%list)
    ∧ (lower (default "False" (SAGEWORKS_DEBUG p)) ≠ "true" →
       logger_level p' = INFO_NUM ∧ debug_calls p' = debug_calls p).
Proof.
  intros Hs. unfold logging_setup. rewrite Hs, remove_all_handlers_ends.
  cbn [mbind option_bind]. 
  destruct (bool_decide (lower (default "False" (SAGEWORKS_DEBUG p)) = "true")) eqn:Hd;
    eexists; (split; [reflexivity |]); cbn;
    repeat (split; [done |]).
  - apply bool_decide_eq_true in Hd. split; [done | done].
  - apply bool_decide_eq_false in Hd. split; [done | done].
Qed.

(** X18. [logging_setup] acts once: after a set-up, a later call changes nothing,
    whatever its argument and whatever the environment variable has
    become. *)
Theorem logging_setup_once fuel1 fuel2 c1 c2 env p p1 :
  logging_setup fuel1 c1 p = Some p1 →
  logging_setup fuel2 c2
    (mkProcess (_is_setup p1) (propagate p1) (handlers p1) (logger_level p1)
               (debug_calls p1) (sagemaker_config_level p1) env)
  = Some (mkProcess (_is_setup p1) (propagate p1) (handlers p1) (logger_level p1)
                    (debug_calls p1) (sagemaker_config_level p1) env).
Proof.
  unfold logging_setup at 1. destruct (_is_setup p) eqn:Hs.
  - intros [= <-]. unfold logging_setup. cbn. by rewrite Hs.
  - destruct (remove_all_handlers fuel1 (handlers p)); [| done]. cbn [mbind option_bind].
    destruct (bool_decide _); intros [= <-]; reflexivity.
Qed.

End LoggerFacts.

(** * The catalog functions *)

Section AthenaFacts.
Import Athena.
Implicit Types (c : catalog) (e : exn).

Lemma glue_outcome_called i k c : glue_outcome i (glue_called k c) = glue_outcome (S i) c.
Proof. unfold glue_outcome, glue_called. cbn [glue_pending]. by rewrite lookup_tail. Qed.

Lemma glue_remote_through k effect c :
  glue_outcome 0 c = None →
  glue_remote k effect c = (Returns (), effect (glue_called k c)).
Proof. unfold glue_remote. by intros ->. Qed.

Lemma glue_remote_fails k effect c e :
  glue_outcome 0 c = Some e →
  glue_remote k effect c = (Raises e, glue_called k c).
Proof. unfold glue_remote. by intros ->. Qed.

(** X19. [ensure_catalog_db]: an error of the session is raised as it is;
    every [ClientError] of the creation that has a code ends the process with
    status 1 and is never raised; an exception of the creation that is no
    [ClientError] is raised as it is; and when both calls go through the
    function returns and the database is in the catalog. *)
Theorem ensure_catalog_db_outcomes catalog_db c :
  (∀ e, glue_outcome 0 c = Some e → fst (ensure_catalog_db catalog_db c) = Raises e)
  ∧ (∀ code msg, glue_outcome 0 c = None →
       glue_outcome 1 c = Some (ClientError code msg) →
       fst (ensure_catalog_db catalog_db c) = Exits 1
       ∧ databases (snd (ensure_catalog_db catalog_db c)) = databases c)
  ∧ (∀ e, glue_outcome 0 c = None → glue_outcome 1 c = Some e →
       is_ClientError e = false →
       fst (ensure_catalog_db catalog_db c) = Raises e)
  ∧ (glue_outcome 0 c = None → glue_outcome 1 c = None →
       fst (ensure_catalog_db catalog_db c) = Returns ()
       ∧ catalog_db ∈ databases (snd (ensure_catalog_db catalog_db c))).
Proof.
  split; [| split; [| split]].
  - intros e. glue_cases c; reflexivity.
  - intros code msg. glue_cases c; glue_run;
      by destruct (bool_decide (code = "AccessDeniedException")).
  - intros e. glue_cases c; glue_run; by destruct e.
  - glue_cases c; glue_run;
      (split; [done | apply elem_of_union_l; by apply elem_of_singleton]).
Qed.

Lemma table_in_added (d t : string) (tbs : gset (string * string)) :
  bool_decide ((d, t) ∈ {[(d, t)]} ∪ tbs) = true.
Proof. apply bool_decide_eq_true_2, elem_of_union_l. by apply elem_of_singleton. Qed.

Lemma table_not_in_removed (d t : string) (tbs : gset (string * string)) :
  bool_decide ((d, t) ∈ tbs ∖ {[(d, t)]}) = false.
Proof.
  apply bool_decide_eq_false_2. rewrite elem_of_difference, elem_of_singleton. tauto.
Qed.

(** The run of [dataframe_to_table] when its three calls go through. *)
Lemma dataframe_to_table_through df s3_path database table_name c :
  glue_outcome 0 c = None → glue_outcome 1 c = None → glue_outcome 2 c = None →
  dataframe_to_table df s3_path database table_name c
  = (Returns (),
     glue_logged (Logger.INFO_NUM,
                  "Table " +:+ table_name +:+ " successfully created in database "
                  +:+ database +:+ ".")
       (glue_called (Call_get_table database table_name)
          (with_tables (λ t, {[(database, table_name)]} ∪ t)
             (glue_called (Call_to_parquet df s3_path database table_name)
                (glue_called Call_get_sagemaker_session
                   (glue_logged (Logger.INFO_NUM, "Assuming Workbench Execution Role...")
                      c)))))).
Proof.
  glue_cases c; glue_run; unfold find_table; cbn; by rewrite table_in_added.
Qed.

(** The run of [delete_table] when its two calls go through. *)
Lemma delete_table_through table_name database c :
  glue_outcome 0 c = None → glue_outcome 1 c = None →
  delete_table table_name database c
  = (Returns (),
     glue_logged (Logger.INFO_NUM,
                  "Table " +:+ table_name +:+ " successfully deleted from database "
                  +:+ database +:+ ".")
       (glue_called (Call_get_table database table_name)
          (with_tables (λ t, t ∖ {[(database, table_name)]})
             (glue_called (Call_delete_table_if_exists database table_name) c)))).
Proof.
  glue_cases c; glue_run; unfold find_table; cbn; by rewrite table_not_in_removed.
Qed.

(** X20. [dataframe_to_table]: an error of the session or of the write is raised
    as it is, and after a failed write the table is not looked up; when the
    look-up reports that the table is not there the function logs at critical
    level and returns, and any other error of the look-up is raised; when the
    three calls go through the table is in the catalog and the function
    returns after logging the creation. *)
Theorem dataframe_to_table_outcomes df s3_path database table_name c :
  (∀ e, glue_outcome 0 c = Some e →
     fst (dataframe_to_table df s3_path database table_name c) = Raises e)
  ∧ (∀ e, glue_outcome 0 c = None → glue_outcome 1 c = Some e →
       fst (dataframe_to_table df s3_path database table_name c) = Raises e
       ∧ glue_calls (snd (dataframe_to_table df s3_path database table_name c))
         = (glue_calls c ++ [Call_get_sagemaker_session;
                             Call_to_parquet df s3_path database table_name])%list)
  ∧ (∀ e, glue_outcome 0 c = None → glue_outcome 1 c = None →
       glue_outcome 2 c = Some e →
       if is_EntityNotFoundException e
       then fst (dataframe_to_table df s3_path database table_name c) = Returns ()
            ∧ last (glue_log (snd (dataframe_to_table df s3_path database table_name c)))
              = Some (Logger.CRITICAL_NUM,
                      "Failed to create table " +:+ table_name +:+ " in database "
                      +:+ database +:+ ".")
       else fst (dataframe_to_table df s3_path database table_name c) = Raises e)
  ∧ (glue_outcome 0 c = None → glue_outcome 1 c = None → glue_outcome 2 c = None →
       fst (dataframe_to_table df s3_path database table_name c) = Returns ()
       ∧ (database, table_name)
           ∈ tables (snd (dataframe_to_table df s3_path database table_name c))
       ∧ last (glue_log (snd (dataframe_to_table df s3_path database table_name c)))
         = Some (Logger.INFO_NUM,
                 "Table " +:+ table_name +:+ " successfully created in database "
                 +:+ database +:+ ".")).
Proof.
  split; [| split; [| split]].
  - intros e. glue_cases c; reflexivity.
  - intros e. glue_cases c; glue_run; by rewrite <- app_assoc.
  - intros e. glue_cases c; glue_run;
      (destruct (is_EntityNotFoundException e) eqn:He; cbn; rewrite ?He;
       [split; [done | by rewrite last_snoc] | done]).
  - intros H0 H1 H2. rewrite (dataframe_to_table_through _ _ _ _ _ H0 H1 H2).
    cbn. split; [done |]. split; [| by rewrite last_snoc].
    apply elem_of_union_l. by apply elem_of_singleton.
Qed.

(** X21. [delete_table]: an error of the deletion is raised as it is; when the
    look-up that follows reports that the table is not there the function
    logs the deletion and returns, and any other error of the look-up is
    raised; when both calls go through the table is not in the catalog any
    more, and the function returns after logging the deletion. *)
Theorem delete_table_outcomes table_name database c :
  (∀ e, glue_outcome 0 c = Some e →
     fst (delete_table table_name database c) = Raises e
     ∧ tables (snd (delete_table table_name database c)) = tables c)
  ∧ (∀ e, glue_outcome 0 c = None → glue_outcome 1 c = Some e →
       if is_EntityNotFoundException e
       then fst (delete_table table_name database c) = Returns ()
            ∧ last (glue_log (snd (delete_table table_name database c)))
              = Some (Logger.INFO_NUM,
                      "Table " +:+ table_name +:+ " successfully deleted from database "
                      +:+ database +:+ ".")
       else fst (delete_table table_name database c) = Raises e)
  ∧ (glue_outcome 0 c = None → glue_outcome 1 c = None →
       fst (delete_table table_name database c) = Returns ()
       ∧ ((database, table_name) ∉ tables (snd (delete_table table_name database c)))
       ∧ last (glue_log (snd (delete_table table_name database c)))
         = Some (Logger.INFO_NUM,
                 "Table " +:+ table_name +:+ " successfully deleted from database "
                 +:+ database +:+ ".")).
Proof.
  split; [| split].
  - intros e. glue_cases c; by glue_run.
  - intros e. glue_cases c; glue_run;
      (destruct (is_EntityNotFoundException e) eqn:He; cbn; rewrite ?He;
       [split; [done | by rewrite last_snoc] | done]).
  - intros H0 H1. rewrite (delete_table_through _ _ _ H0 H1).
    cbn. split; [done |]. split; [| by rewrite last_snoc].
    rewrite elem_of_difference, elem_of_singleton. tauto.
Qed.

(** X22. In a database of the catalog, a table that was not in the catalog,
    created by [dataframe_to_table] and deleted by [delete_table]: both
    functions return, and the tables of the catalog are what they were. *)
Theorem dataframe_to_table_then_delete_table df s3_path database table_name c :
  (∀ i, (i < 5)%nat → glue_outcome i c = None) →
  database ∈ databases c →
  (database, table_name) ∉ tables c →
  let c1 := snd (dataframe_to_table df s3_path database table_name c) in
  fst (dataframe_to_table df s3_path database table_name c) = Returns ()
  ∧ (database, table_name) ∈ tables c1
  ∧ fst (delete_table table_name database c1) = Returns ()
  ∧ tables (snd (delete_table table_name database c1)) = tables c
  ∧ databases (snd (delete_table table_name database c1)) = databases c.
Proof.
  intros Hq _ Hnot c1.
  pose proof (dataframe_to_table_through df s3_path database table_name c
                (Hq 0%nat ltac:(lia)) (Hq 1%nat ltac:(lia)) (Hq 2%nat ltac:(lia))) as Hrun.
  assert (Hc1 : c1 = snd (dataframe_to_table df s3_path database table_name c)) by done.
  rewrite Hrun in Hc1. cbn [snd] in Hc1.
  assert (H3 : glue_outcome 0 c1 = None).
  { rewrite Hc1. unfold glue_logged, with_tables, glue_outcome. cbn.
    rewrite !lookup_tail. apply (Hq 3%nat). lia. }
  assert (H4 : glue_outcome 1 c1 = None).
  { rewrite Hc1. unfold glue_logged, with_tables, glue_outcome. cbn.
    rewrite !lookup_tail. apply (Hq 4%nat). lia. }
  split; [by rewrite Hrun |].
  split; [rewrite Hc1; cbn; apply elem_of_union_l; by apply elem_of_singleton |].
  rewrite (delete_table_through _ _ _ H3 H4). cbn [fst snd].
  split; [done |]. rewrite Hc1. cbn. split; [| done].
  apply set_eq. intros x. rewrite elem_of_difference, elem_of_union, elem_of_singleton.
  split; [intros [[-> | Hx] Hne]; [done | done] |].
  intros Hx. split; [by right |]. intros ->. done.
Qed.

End AthenaFacts.

(** ** The claims on the data of the module's own exercise *)

(** Every remote call on [fresh_world] goes through. *)
Lemma quiet_fresh_world n : quiet n fresh_world.
Proof. intros i _. by destruct i. Defined.

Lemma quiet_written_world n : quiet n written_world.
Proof. intros i _. by destruct i. Defined.

(** On the empty store the path of no name selects anything. *)
Lemma fresh_world_selects_nothing path : selected path (objects fresh_world) = ∅.
Proof. apply map_filter_empty. Defined.

(** The names of the exercise read their own datasets, before and after the
    first write. *)
Lemma test_data_reads_own_dataset : reads_own_dataset demo_store "test_data" fresh_world.
Proof. apply reads_own_dataset_checked; vm_compute; reflexivity. Defined.

Lemma test_data_reads_own_dataset_again :
  reads_own_dataset demo_store "test_data" written_world.
Proof. apply reads_own_dataset_checked; vm_compute; reflexivity. Defined.

Lemma test_series_reads_own_dataset :
  reads_own_dataset demo_store "test_series" fresh_world.
Proof. apply reads_own_dataset_checked; vm_compute; reflexivity. Defined.

(** The path of ["test_data"] selects the part file of the written store. *)
Lemma written_world_selects_test_data :
  selected (_generate_s3_uri demo_store "test_data") (objects written_world) ≠ ∅.
Proof.
  intros He.
  assert (selected (_generate_s3_uri demo_store "test_data") (objects written_world)
            !! part_path demo_store "test_data" fresh_world = None) as Hl
    by (rewrite He; apply lookup_empty).
  vm_compute in Hl. discriminate Hl.
Defined.

(** C1 as stated fails: on the store that holds ["test_data"], the legal name
    ["te*"] is written with [my_df], and [get] of that name reads the part
    files of both datasets, four rows instead of two. *)
Lemma roundtrip_fails_on_wildcard_name :
  supported my_df
  ∧ legal_name demo_store "te*" = true
  ∧ fst (upsert demo_store "te*" (PyDataFrame my_df) written_world) = Return ()
  ∧ fst (get demo_store "te*"
           (snd (upsert demo_store "te*" (PyDataFrame my_df) written_world)))
    = Return (mkDataFrame [LStr "A"; LStr "B"]
                [[VInt 1; VInt 3]; [VInt 2; VInt 4]; [VInt 1; VInt 3]; [VInt 2; VInt 4]])
  ∧ fst (get demo_store "te*"
           (snd (upsert demo_store "te*" (PyDataFrame my_df) written_world)))
    ≠ Return my_df.
Proof. vm_compute. repeat split; discriminate. Qed.

(** C1, amended, on the exercise: [my_df] written as ["test_data"] is read
    back. *)
Lemma upsert_then_get_roundtrip_witness :
  fst (upsert demo_store "test_data" (PyDataFrame my_df) fresh_world) = Return ()
  ∧ fst (get demo_store "test_data"
           (snd (upsert demo_store "test_data" (PyDataFrame my_df) fresh_world)))
    = Return my_df.
Proof.
  exact (upsert_then_get_roundtrip demo_store "test_data" my_df fresh_world
           eq_refl (quiet_fresh_world 2) test_data_reads_own_dataset).
Defined.

(** C2 on the exercise: reading ["test_data"] before it was written. *)
Lemma get_never_written_raises_witness :
  fst (get demo_store "test_data" fresh_world)
  = Raise (NoFilesFound ("No files Found on: " +:+ _generate_s3_uri demo_store "test_data"
                         +:+ "."))
  ∧ fst (get demo_store "test_data" fresh_world) ≠ Return DataFrame_empty.
Proof.
  exact (get_never_written_raises demo_store "test_data" fresh_world eq_refl
           (fresh_world_selects_nothing _)).
Defined.

(** C5 on the exercise: a refused write, of a table and of a series. *)
Lemma upsert_reraises_write_failure_witness :
  upsert demo_store "test_data" (PyDataFrame my_df) denied_world
  = (Raise access_denied,
     logged (CRITICAL, "Failed to add/update data 'test_data': " +:+ exn_str access_denied)
       (called (Call_to_parquet "s3://workbench-bucket/df_store/test_data.parquet")
               denied_world))
  ∧ fst (upsert demo_store "test_series" (PySeries series) denied_world)
    = Raise access_denied.
Proof.
  split.
  - apply (upsert_reraises_write_failure demo_store "test_data" (PyDataFrame my_df)
             denied_world access_denied); reflexivity.
  - rewrite (upsert_reraises_write_failure demo_store "test_series" (PySeries series)
               denied_world access_denied); reflexivity.
Defined.

(** C6 on the exercise: a string as payload. *)
Lemma upsert_rejects_other_payloads_witness :
  upsert demo_store "test_data" (PyStr "A,B") fresh_world
  = (Raise (ValueError "Only Pandas DataFrame or Series objects are supported."),
     fresh_world).
Proof.
  apply (upsert_rejects_other_payloads demo_store "test_data" (PyStr "A,B") fresh_world);
    reflexivity.
Defined.



(** C8 as stated fails: refused with [AccessDenied], [get] returns the empty
    table and raises nothing. *)
Lemma get_swallows_access_denied :
  outcome 0 denied_world = Some access_denied
  ∧ fst (get demo_store "test_data" denied_world) = Return DataFrame_empty
  ∧ fst (get demo_store "test_data" denied_world) ≠ Raise access_denied
  ∧ log (snd (get demo_store "test_data" denied_world))
    = [(WARNING, "Data 'test_data' not found in S3.")].
Proof. vm_compute. repeat split; discriminate. Qed.

(** C8, amended, on the exercise: a refused read. *)
Lemma get_on_remote_error_witness :
  get demo_store "test_data" denied_world
  = (Return DataFrame_empty,
     logged (WARNING, "Data 'test_data' not found in S3.")
       (called (Call_read_parquet "s3://workbench-bucket/df_store/test_data.parquet")
               denied_world)).
Proof.
  apply (proj1 (get_on_remote_error demo_store "test_data" denied_world access_denied
                  eq_refl)).
  reflexivity.
Defined.

(** C9 on the exercise: a refused listing. *)
Lemma details_failure_columns_witness :
  details demo_store denied_world
  = (Return (DataFrame_columns ["name"; "s3_file"; "size"; "created"; "modified"]),
     logged (ERROR, "Failed to get object details: " +:+ exn_str access_denied)
       (called (Call_list_objects_v2 "workbench-bucket" "df_store/") denied_world)).
Proof.
  apply (proj1 (details_failure_columns demo_store denied_world access_denied eq_refl)).
Defined.

(** C10 on a function that returns a string. *)
Lemma wrapper_transparent_on_success_witness :
  wrapper "AWS resource" (λ _ : (), mret (PyStr "ok")) () fresh_world
  = (Return (PyStr "ok"), fresh_world).
Proof.
  apply (wrapper_transparent_on_success "AWS resource" (λ _ : (), mret (PyStr "ok"))
           () fresh_world (PyStr "ok") fresh_world).
  reflexivity.
Defined.

(** C4 on [test_not_found] and [test_other_error]. *)
Lemma wrapper_classifies_errors_witness :
  wrapper "AWS resource" test_not_found () fresh_world
  = (Return PyNone,
     logged (WARNING, "AWS resource not found: ResourceNotFoundException, returning None...")
            fresh_world)
  ∧ wrapper "AWS resource" test_other_error () fresh_world
    = (Raise (ClientError "SomeOtherError" "test"),
       logged (CRITICAL, "Critical error in AWS call: SomeOtherError") fresh_world).
Proof.
  split.
  - apply (proj1 (wrapper_classifies_errors "AWS resource" test_not_found () fresh_world
                    (ClientError "ResourceNotFoundException" "test") fresh_world eq_refl)
             "ResourceNotFoundException" "test" eq_refl).
    apply (bool_decide_unpack _). vm_compute. exact I.
  - apply (proj1 (proj2 (proj2
             (wrapper_classifies_errors "AWS resource" test_other_error () fresh_world
                (ClientError "SomeOtherError" "test") fresh_world eq_refl)))
             "SomeOtherError" "test" eq_refl).
    apply (bool_decide_unpack _). vm_compute. exact I.
Defined.

(** C3 as stated fails: ["test_data"], the name the module's own exercise
    writes, is legal, and decoding its storage key gives ["/test_data"]; and
    the legal name ["/a//b"] comes back as ["/a/b"]. *)
Lemma name_codec_not_inverse_on_test_data :
  (legal_name demo_store "test_data" = true
   ∧ storage_key demo_store "test_data" = "df_store/test_data.parquet"
   ∧ name_of_key demo_store (storage_key demo_store "test_data") = "/test_data"
   ∧ name_of_key demo_store (storage_key demo_store "test_data") ≠ "test_data")
  ∧ (legal_name demo_store "/a//b" = true
     ∧ name_of_key demo_store (storage_key demo_store "/a//b") = "/a/b"
     ∧ name_of_key demo_store (storage_key demo_store "/a//b") ≠ "/a//b").
Proof. vm_compute. repeat split; discriminate. Qed.

(** The listing of [details] shows the same: the name written as
    ["test_data"] is listed as ["/test_data"], with the part file of its
    dataset. *)
Example details_after_upsert :
  fst (details demo_store written_world)
  = Return (DataFrame_rows
              [[VStr "/test_data";
                VStr "s3://workbench-bucket/df_store/test_data.parquet/part0.snappy.parquet";
                VInt 4; VTime 0]]
              detail_columns).
Proof. vm_compute. reflexivity. Qed.

(** C3, amended, on a canonical name: it is decoded to itself. *)
Lemma name_codec_inverse_on_slash_names_witness :
  name_of_key (mkDFStore store_prefix "workbench-bucket")
    (storage_key (mkDFStore store_prefix "workbench-bucket") "/tests/test_data")
  = "/tests/test_data".
Proof.
  exact (proj2 (proj1 (proj2
           (name_codec_inverse_on_slash_names "workbench-bucket" "/tests/test_data"
              eq_refl eq_refl)))
           eq_refl).
Defined.
(** * The further properties on the data of the module's own exercise *)

Lemma get_after_upsert_series_witness :
  fst (upsert demo_store "test_series" (PySeries series) fresh_world) = Return ()
  ∧ fst (get demo_store "test_series"
           (snd (upsert demo_store "test_series" (PySeries series) fresh_world)))
    = Return (mkDataFrame [LStr "Series"] ((λ v, [v]) <$> svalues series)).
Proof.
  exact (get_after_upsert_series demo_store "test_series" series "Series" fresh_world
           eq_refl eq_refl (quiet_fresh_world 2) test_series_reads_own_dataset).
Defined.

Lemma upsert_overwrites_witness :
  let w1 := snd (upsert demo_store "test_data" (PyDataFrame my_df) fresh_world) in
  let w2 := snd (upsert demo_store "test_data" (PyDataFrame (to_frame series)) w1) in
  fst (upsert demo_store "test_data" (PyDataFrame my_df) fresh_world) = Return ()
  ∧ fst (upsert demo_store "test_data" (PyDataFrame (to_frame series)) w1) = Return ()
  ∧ fst (get demo_store "test_data" w2) = Return (to_frame series)
  ∧ selected (_generate_s3_uri demo_store "test_data") (objects w2)
    = {[part_path demo_store "test_data" w1 :=
          mkObject (to_blob (to_frame series)) (blob_size (to_blob (to_frame series)))
                   (clock w1)]}.
Proof.
  exact (upsert_overwrites demo_store "test_data" my_df (to_frame series) fresh_world
           eq_refl (quiet_fresh_world 3) test_data_reads_own_dataset_again).
Defined.

(** The path of ["test_data"] selects nothing of the dataset of
    ["test_series"], written on the store that holds ["test_data"]. *)
Lemma test_series_part_not_selected :
  selects (_generate_s3_uri demo_store "test_data")
          (part_path demo_store "test_series" written_world) = false.
Proof. vm_compute. reflexivity. Defined.

Lemma written_world_outside_test_series k :
  is_Some (objects written_world !! k) →
  negb (selects (path_root (_generate_s3_uri demo_store "test_series")) k) = true.
Proof.
  apply (stored_keys_checked
           (λ k, negb (selects (path_root (_generate_s3_uri demo_store "test_series")) k))
           written_world).
  vm_compute. reflexivity.
Defined.

Lemma test_data_kept_by_test_series k :
  is_Some (objects written_world !! k) →
  selects (_generate_s3_uri demo_store "test_data") k = true →
  selects (path_root (_generate_s3_uri demo_store "test_series")) k = false.
Proof.
  intros Hk _. apply negb_true_iff. exact (written_world_outside_test_series k Hk).
Defined.

Lemma upsert_other_name_witness :
  fst (upsert demo_store "test_series" (PyDataFrame (to_frame series)) written_world)
  = Return ()
  ∧ fst (get demo_store "test_data"
           (snd (upsert demo_store "test_series" (PyDataFrame (to_frame series))
                   written_world)))
    = fst (get demo_store "test_data" written_world).
Proof.
  exact (upsert_other_name demo_store "test_series" "test_data" (to_frame series)
           written_world (quiet_written_world 2) test_series_part_not_selected
           test_data_kept_by_test_series).
Defined.

Lemma leading_slash_is_optional_witness :
  fst (upsert (mkDFStore store_prefix "workbench-bucket") "test_data"
         (PyDataFrame my_df) fresh_world) = Return ()
  ∧ fst (get (mkDFStore store_prefix "workbench-bucket") "/test_data"
           (snd (upsert (mkDFStore store_prefix "workbench-bucket") "test_data"
                   (PyDataFrame my_df) fresh_world)))
    = Return my_df.
Proof.
  exact (leading_slash_is_optional "workbench-bucket" "test_data" my_df fresh_world
           eq_refl eq_refl eq_refl eq_refl (quiet_fresh_world 2)
           test_data_reads_own_dataset).
Defined.

Lemma generate_s3_uri_inj_witness : "/tests/test_data" = "/tests/test_data".
Proof.
  exact (generate_s3_uri_inj "workbench-bucket" "/tests/test_data" "/tests/test_data"
           eq_refl eq_refl eq_refl eq_refl eq_refl eq_refl eq_refl eq_refl).
Defined.

Lemma part_file_keys_decode_to_name_witness :
  name_of_key (mkDFStore store_prefix "workbench-bucket")
    (storage_key (mkDFStore store_prefix "workbench-bucket") "test_data"
     +:+ "/0a1b2c.snappy.parquet")
  = "/test_data".
Proof.
  exact (part_file_keys_decode_to_name "workbench-bucket" "test_data"
           "/0a1b2c.snappy.parquet" eq_refl eq_refl eq_refl).
Defined.

Lemma demo_prefix_not_empty : prefix demo_store ≠ EmptyString.
Proof. discriminate. Defined.

Lemma name_of_key_begins_with_slash_witness :
  PyStr.startswith (name_of_key demo_store (prefix demo_store +:+ "notes.txt")) "/" = true.
Proof.
  exact (name_of_key_begins_with_slash demo_store "notes.txt" demo_prefix_not_empty).
Defined.

Lemma details_after_first_upsert_witness :
  fst (details (mkDFStore store_prefix "workbench-bucket")
         (snd (upsert (mkDFStore store_prefix "workbench-bucket") "test_data"
                 (PyDataFrame my_df) fresh_world)))
  = Return (DataFrame_rows
              [[VStr (String "/" (unslash "test_data"));
                VStr (_generate_s3_uri (mkDFStore store_prefix "workbench-bucket")
                        "test_data" +:+ "/" +:+ part_name (clock fresh_world));
                VInt (blob_size (to_blob my_df));
                VTime (clock fresh_world)]]
              detail_columns).
Proof.
  exact (details_after_first_upsert "workbench-bucket" "test_data" my_df fresh_world
           eq_refl eq_refl eq_refl eq_refl (quiet_fresh_world 2)).
Defined.

Lemma delete_twice_witness :
  let w1 := snd (delete_ demo_store "test_data" written_world) in
  fst (delete_ demo_store "test_data" written_world) = Return ()
  ∧ delete_ demo_store "test_data" w1
    = (Return (),
       logged (WARNING, "Data '" +:+ "test_data" +:+ "' does not exist in S3. Cannot delete.")
              (called (Call_list_objects (_generate_s3_uri demo_store "test_data")) w1))
  ∧ objects (snd (delete_ demo_store "test_data" w1)) = objects w1.
Proof.
  exact (delete_twice demo_store "test_data" written_world
           (quiet_written_world 3) written_world_selects_test_data).
Defined.

Lemma upsert_then_delete_witness :
  let w1 := snd (upsert demo_store "test_data" (PyDataFrame my_df) fresh_world) in
  fst (upsert demo_store "test_data" (PyDataFrame my_df) fresh_world) = Return ()
  ∧ fst (delete_ demo_store "test_data" w1) = Return ()
  ∧ objects (snd (delete_ demo_store "test_data" w1)) = objects fresh_world.
Proof.
  exact (upsert_then_delete demo_store "test_data" my_df fresh_world
           (quiet_fresh_world 3) (fresh_world_selects_nothing _)
           (fresh_world_selects_nothing _) (proj1 test_data_reads_own_dataset)).
Defined.

Lemma wrapper_raises_only_unclassified_witness :
  let e := ClientError "SomeOtherError" "test" in
  let w2 := logged (CRITICAL, "Critical error in AWS call: SomeOtherError") fresh_world in
  ((∃ w1, test_other_error () fresh_world = (Raise e, w1))
   ∧ (∀ msg, e ≠ NoFilesFound msg)
   ∧ (∀ code msg, e = ClientError code msg → code ∉ not_found_errors)
   ∧ (∀ key msg, e ≠ ClientErrorWithout key msg))
  ∨ (∃ key msg, test_other_error () fresh_world = (Raise (ClientErrorWithout key msg), w2)
                ∧ e = KeyError key).
Proof.
  exact (wrapper_raises_only_unclassified "AWS resource" test_other_error ()
           fresh_world (ClientError "SomeOtherError" "test")
           (logged (CRITICAL, "Critical error in AWS call: SomeOtherError") fresh_world)
           eq_refl).
Defined.

Lemma wrapper_returns_value_or_none_witness :
  let w2 := logged (WARNING,
                    "AWS resource not found: ResourceNotFoundException, returning None...")
                   fresh_world in
  test_not_found () fresh_world = (Return PyNone, w2)
  ∨ (PyNone = PyNone
     ∧ ∃ e w1, test_not_found () fresh_world = (Raise e, w1)
       ∧ ((∃ msg, e = NoFilesFound msg)
          ∨ (∃ code msg, e = ClientError code msg ∧ code ∈ not_found_errors))).
Proof.
  exact (wrapper_returns_value_or_none "AWS resource" test_not_found () fresh_world PyNone
           (logged (WARNING,
                    "AWS resource not found: ResourceNotFoundException, returning None...")
                   fresh_world)
           eq_refl).
Defined.

(** The set-up on [demo_process]: the handler on [sys.stderr] is gone, and
    the level is [DEBUG]. *)
Lemma logging_setup_first_witness :
  ∃ p', Logger.logging_setup (length (Logger.handlers demo_process)) true demo_process
        = Some p'
    ∧ Logger.handlers p' = [Logger.mkHandler "sys.stdout" (Some Logger.ColoredFormatter)]
    ∧ Logger.logger_level p' = Logger.DEBUG_NUM.
Proof.
  destruct (logging_setup_first true demo_process eq_refl)
    as (p' & Hrun & _ & _ & Hh & _ & Hdebug & _).
  exists p'. split; [exact Hrun |]. split; [exact Hh |].
  exact (proj1 (Hdebug eq_refl)).
Defined.

(** A second set-up, without colours and with the variable unset, changes
    nothing. *)
Lemma logging_setup_once_witness :
  let p1 := Logger.mkProcess true false
              [Logger.mkHandler "sys.stdout" (Some Logger.ColoredFormatter)]
              Logger.DEBUG_NUM
              ["Debugging enabled via SAGEWORKS_DEBUG environment variable."]
              Logger.WARNING_NUM (Some "True") in
  Logger.logging_setup 0 false
    (Logger.mkProcess (Logger._is_setup p1) (Logger.propagate p1) (Logger.handlers p1)
       (Logger.logger_level p1) (Logger.debug_calls p1)
       (Logger.sagemaker_config_level p1) None)
  = Some (Logger.mkProcess (Logger._is_setup p1) (Logger.propagate p1) (Logger.handlers p1)
            (Logger.logger_level p1) (Logger.debug_calls p1)
            (Logger.sagemaker_config_level p1) None).
Proof.
  exact (logging_setup_once 1 0 true false None demo_process _ eq_refl).
Defined.

(** [ensure_catalog_db] on the refusing catalog leaves the process, and on
    the fresh catalog creates the database. *)
Lemma ensure_catalog_db_outcomes_witness :
  (fst (Athena.ensure_catalog_db "inference_store" denied_catalog) = Athena.Exits 1
   ∧ Athena.databases (snd (Athena.ensure_catalog_db "inference_store" denied_catalog))
     = Athena.databases denied_catalog)
  ∧ (fst (Athena.ensure_catalog_db "inference_store" fresh_catalog) = Athena.Returns ()
     ∧ "inference_store"
         ∈ Athena.databases (snd (Athena.ensure_catalog_db "inference_store" fresh_catalog))).
Proof.
  split.
  - exact (proj1 (proj2 (ensure_catalog_db_outcomes "inference_store" denied_catalog))
             "AccessDeniedException"
             "User is not authorized to perform glue:CreateDatabase" eq_refl eq_refl).
  - exact (proj2 (proj2 (proj2 (ensure_catalog_db_outcomes "inference_store" fresh_catalog)))
             eq_refl eq_refl).
Defined.

(** [dataframe_to_table] on the refusing catalog raises the error of the
    write and does not look the table up. *)
Lemma dataframe_to_table_outcomes_witness :
  fst (Athena.dataframe_to_table my_df "s3://workbench-bucket/tables/t" "inference_store"
         "t" denied_catalog)
  = Athena.Raises access_denied_exception
  ∧ Athena.glue_calls
      (snd (Athena.dataframe_to_table my_df "s3://workbench-bucket/tables/t"
              "inference_store" "t" denied_catalog))
    = (Athena.glue_calls denied_catalog
       ++ [Athena.Call_get_sagemaker_session;
           Athena.Call_to_parquet my_df "s3://workbench-bucket/tables/t"
             "inference_store" "t"])%list.
Proof.
  exact (proj1 (proj2 (dataframe_to_table_outcomes my_df "s3://workbench-bucket/tables/t"
                         "inference_store" "t" denied_catalog))
           access_denied_exception eq_refl eq_refl).
Defined.

(** [delete_table] on the fresh catalog. *)
Lemma delete_table_outcomes_witness :
  fst (Athena.delete_table "t" "inference_store" fresh_catalog) = Athena.Returns ()
  ∧ (("inference_store", "t")
       ∉ Athena.tables (snd (Athena.delete_table "t" "inference_store" fresh_catalog)))
  ∧ last (Athena.glue_log (snd (Athena.delete_table "t" "inference_store" fresh_catalog)))
    = Some (Logger.INFO_NUM,
            "Table " +:+ "t" +:+ " successfully deleted from database "
            +:+ "inference_store" +:+ ".").
Proof.
  exact (proj2 (proj2 (delete_table_outcomes "t" "inference_store" fresh_catalog))
           eq_refl eq_refl).
Defined.

Lemma ready_catalog_quiet i : (i < 5)%nat → Athena.glue_outcome i ready_catalog = None.
Proof. intros _. by destruct i. Defined.

Lemma ready_catalog_has_database : "inference_store" ∈ Athena.databases ready_catalog.
Proof. apply (bool_decide_unpack _). vm_compute. exact I. Defined.

Lemma ready_catalog_no_table : ("inference_store", "t") ∉ Athena.tables ready_catalog.
Proof. apply not_elem_of_empty. Defined.

(** Creation and deletion on the catalog that has the database. *)
Lemma dataframe_to_table_then_delete_table_witness :
  let c1 := snd (Athena.dataframe_to_table my_df "s3://workbench-bucket/tables/t"
                   "inference_store" "t" ready_catalog) in
  fst (Athena.dataframe_to_table my_df "s3://workbench-bucket/tables/t"
         "inference_store" "t" ready_catalog) = Athena.Returns ()
  ∧ ("inference_store", "t") ∈ Athena.tables c1
  ∧ fst (Athena.delete_table "t" "inference_store" c1) = Athena.Returns ()
  ∧ Athena.tables (snd (Athena.delete_table "t" "inference_store" c1))
    = Athena.tables ready_catalog
  ∧ Athena.databases (snd (Athena.delete_table "t" "inference_store" c1))
    = Athena.databases ready_catalog.
Proof.
  exact (dataframe_to_table_then_delete_table my_df "s3://workbench-bucket/tables/t"
           "inference_store" "t" ready_catalog ready_catalog_quiet
           ready_catalog_has_database ready_catalog_no_table).
Defined.
